(** * Verification of the AMM price-curve synthesizer and the A2A envelope

    Shallow embedding of

    - [skills/nt-dex-adapter/templates/dex_order_book_builder.py]
      ([amm_spot_price], [amm_execution_price], [calculate_amm_price_levels]);
    - [skills/brainstorming_evomap/envelope.py]
      ([build_envelope], [validate_envelope]).

    Numeric model.  A finite Python [float] is modelled by an exact rational
    ([Q]): every arithmetic operation of the source is the corresponding
    exact operation, so rounding, overflow and NaN are outside the model.
    The one infinite value the source constructs itself, [float("inf")], is
    an explicit constructor of [pyfloat].  Python raises [ZeroDivisionError]
    on a float division by zero; [fdiv] does the same.  A Python [int] is a
    [Z].  Default arguments ([num_levels=10], [size_step=0.1],
    [fee_rate=0.003], [is_buy=True]) are passed explicitly.

    The exact model decides what depends on the control flow only.  What
    depends on the computed values is settled on the second embedding,
    module [Binary64], where a [float] is an IEEE 754 binary64 number and
    every operation rounds as Python's does. *)

From Stdlib Require Import QArith Lqa ZArith Lia List String.
From Stdlib Require Import Floats SpecFloat.
From stdpp Require Import gmap strings sorting.

(** ** Python results: a value, or a raised exception *)

Module Py.

Inductive exn : Type :=
| ZeroDivisionError
| ValueError (msg : string).

Inductive result (A : Type) : Type :=
| Ok (a : A)
| Raise (e : exn).

Arguments Ok {A} a.
Arguments Raise {A} e.

Definition bind {A B : Type} (m : result A) (f : A -> result B) : result B :=
  match m with
  | Ok a => f a
  | Raise e => Raise e
  end.

(** [float / float]: raises on a zero divisor. *)
Definition fdiv (x y : Q) : result Q :=
  if Qeq_bool y 0 then Raise ZeroDivisionError else Ok (x / y)%Q.

(** A float that may be [float("inf")]. *)
Inductive pyfloat : Type :=
| Fin (q : Q)
| Inf.

(** [range(lo, hi)] over Python integers. *)
Definition range (lo hi : Z) : list Z :=
  List.map (fun n => (lo + Z.of_nat n)%Z) (List.seq 0 (Z.to_nat (hi - lo))).

(** [needle in s] for strings. *)
Definition str_contains (needle s : string) : bool :=
  match String.index 0 needle s with
  | Some _ => true
  | None => false
  end.

End Py.

Import Py.

#[global] Instance result_bind : MBind result := fun A B f m => bind m f.

(** ** dex_order_book_builder.py *)

Module OrderBookBuilder.

Local Open Scope Q_scope.

(** A price level [(price, size)]. *)
Definition level : Type := (Q * Q)%type.

Definition amm_spot_price (reserve0 reserve1 : Q) : result Q :=
  if Qeq_bool reserve0 0 then
    Raise (ValueError
      "reserve0 is zero — cannot calculate price from empty pool")
  else Ok (reserve1 / reserve0).

Definition amm_execution_price
    (reserve0 reserve1 amount_in fee_rate : Q) (is_buy : bool)
  : result pyfloat :=
  let k := reserve0 * reserve1 in
  if is_buy then
    let amount_in_adjusted := amount_in * (1 - fee_rate) in
    let new_reserve1 := reserve1 + amount_in_adjusted in
    new_reserve0 ← fdiv k new_reserve1;
    let amount_out := reserve0 - new_reserve0 in
    if Qlt_le_dec 0 amount_out then
      p ← fdiv amount_in amount_out; Ok (Fin p)
    else Ok Inf
  else
    let amount_in_adjusted := amount_in * (1 - fee_rate) in
    let new_reserve0 := reserve0 + amount_in_adjusted in
    new_reserve1 ← fdiv k new_reserve0;
    let amount_out := reserve1 - new_reserve1 in
    if Qlt_le_dec 0 amount_in then
      p ← fdiv amount_out amount_in; Ok (Fin p)
    else Ok (Fin 0).

(** One pass through the body of the [for] loop at index [i].

    [None] is the [break]; [Some (bid_levels, ask_levels)] are the two lists
    after the pass. *)
Definition level_body
    (reserve0 reserve1 fee_rate size_step k : Q) (i : Z)
    (bid_levels ask_levels : list level)
  : result (option (list level * list level)) :=
  let trade_size := reserve0 * size_step * inject_Z i in
  if Qle_bool (reserve0 - trade_size) 0 then Ok None
  else
    new_reserve1_ask ← fdiv k (reserve0 - trade_size);
    let amount_in_token1 := new_reserve1_ask - reserve1 in
    amount_in_with_fee ← fdiv amount_in_token1 (1 - fee_rate);
    ask_levels' ←
      (if Qlt_le_dec 0 trade_size then
         ask_price ← fdiv amount_in_with_fee trade_size;
         Ok (ask_levels ++ [(ask_price, trade_size)])
       else Ok ask_levels);
    let amount_in_adjusted := trade_size * (1 - fee_rate) in
    new_reserve1_bid ← fdiv k (reserve0 + amount_in_adjusted);
    let amount_out_token1 := reserve1 - new_reserve1_bid in
    bid_levels' ←
      (if Qlt_le_dec 0 trade_size then
         bid_price ← fdiv amount_out_token1 trade_size;
         Ok (bid_levels ++ [(bid_price, trade_size)])
       else Ok bid_levels);
    Ok (Some (bid_levels', ask_levels')).

(** The [for i in range(1, num_levels + 1)] loop over the remaining indices. *)
Fixpoint for_levels
    (reserve0 reserve1 fee_rate size_step k : Q) (idx : list Z)
    (bid_levels ask_levels : list level)
  : result (list level * list level) :=
  match idx with
  | [] => Ok (bid_levels, ask_levels)
  | i :: rest =>
      r ← level_body reserve0 reserve1 fee_rate size_step k i
            bid_levels ask_levels;
      match r with
      | None => Ok (bid_levels, ask_levels)
      | Some (bid_levels', ask_levels') =>
          for_levels reserve0 reserve1 fee_rate size_step k rest
            bid_levels' ask_levels'
      end
  end.

Definition calculate_amm_price_levels
    (reserve0 reserve1 fee_rate : Q) (num_levels : Z) (size_step : Q)
  : result (list level * list level) :=
  if Qle_bool reserve0 0 || Qle_bool reserve1 0 then Ok ([], [])
  else
    let k := reserve0 * reserve1 in
    for_levels reserve0 reserve1 fee_rate size_step k
      (range 1 (num_levels + 1)) [] [].

(** [max(p for p, _ in levels)] and [min(p for p, _ in levels)]; [None] on
    an empty list, where Python raises. *)
Definition prices (levels : list level) : list Q := List.map fst levels.

Definition py_max (l : list Q) : option Q :=
  match l with
  | [] => None
  | x :: rest =>
      Some (fold_left (fun m y => if Qlt_le_dec m y then y else m) rest x)
  end.

Definition py_min (l : list Q) : option Q :=
  match l with
  | [] => None
  | x :: rest =>
      Some (fold_left (fun m y => if Qlt_le_dec y m then y else m) rest x)
  end.

(** [min(askPrice) - max(bidPrice)]. *)
Definition spread (bid_levels ask_levels : list level) : option Q :=
  match py_min (prices ask_levels), py_max (prices bid_levels) with
  | Some a, Some b => Some (a - b)
  | _, _ => None
  end.

End OrderBookBuilder.

(** ** Named expressions

    The quotients that the two branches of [amm_execution_price] return on a
    positive trade, and the reference formula of the specification. *)

Module Curve.

Import OrderBookBuilder.
Local Open Scope Q_scope.

(** The quotient the buy branch returns. *)
Definition buy_expr (reserve0 reserve1 fee_rate amount_in : Q) : Q :=
  amount_in /
  (reserve0 - reserve0 * reserve1 / (reserve1 + amount_in * (1 - fee_rate))).

(** The quotient the sell branch returns. *)
Definition sell_expr (reserve0 reserve1 fee_rate amount_in : Q) : Q :=
  (reserve1 - reserve0 * reserve1 / (reserve0 + amount_in * (1 - fee_rate)))
  / amount_in.

(** The ask price of the rung of size [trade_size], as [level_body]
    computes it.  The bid price of that rung is [sell_expr] at
    [trade_size]. *)
Definition ask_expr (reserve0 reserve1 fee_rate trade_size : Q) : Q :=
  (reserve0 * reserve1 / (reserve0 - trade_size) - reserve1)
  / (1 - fee_rate) / trade_size.

Definition bid_level (reserve0 reserve1 fee_rate trade_size : Q) : level :=
  (sell_expr reserve0 reserve1 fee_rate trade_size, trade_size).

Definition ask_level (reserve0 reserve1 fee_rate trade_size : Q) : level :=
  (ask_expr reserve0 reserve1 fee_rate trade_size, trade_size).

(** The trade sizes of the passes the loop completes over [idx]: those
    before the first index at which [reserve0 - trade_size <= 0]. *)
Fixpoint executed_sizes (reserve0 size_step : Q) (idx : list Z) : list Q :=
  match idx with
  | [] => []
  | i :: rest =>
      let trade_size := reserve0 * size_step * inject_Z i in
      if Qle_bool (reserve0 - trade_size) 0 then []
      else trade_size :: executed_sizes reserve0 size_step rest
  end.

(** The denominator of the constant-product quotient [k / new_reserve]:
    the quote-token reserve after a buy, the base-token reserve after a
    sell. *)
Definition new_reserve
    (reserve0 reserve1 amount_in fee_rate : Q) (is_buy : bool) : Q :=
  if is_buy then reserve1 + amount_in * (1 - fee_rate)
  else reserve0 + amount_in * (1 - fee_rate).

(** The reference formula, following the specification's words.

    Buy: [amountOut = reserve0 - k / (reserve1 + amountIn * (1 - feeRate))];
    the price is [amountIn / amountOut] if [amountOut > 0], else
    [+infinity].  Sell, the mirror:
    [(reserve1 - k / (reserve0 + amountIn * (1 - feeRate))) / amountIn] if
    [amountIn > 0], and [0.0] if [amountIn == 0]. *)
Definition reference_price
    (reserve0 reserve1 amount_in fee_rate : Q) (is_buy : bool) : pyfloat :=
  let k := reserve0 * reserve1 in
  if is_buy then
    let amountOut := reserve0 - k / (reserve1 + amount_in * (1 - fee_rate)) in
    if Qlt_le_dec 0 amountOut then Fin (amount_in / amountOut) else Inf
  else
    if Qeq_bool amount_in 0 then Fin 0
    else Fin ((reserve1 - k / (reserve0 + amount_in * (1 - fee_rate)))
              / amount_in).

End Curve.

Import OrderBookBuilder Curve.

(** ** dex_order_book_builder.py on binary64 floats

    The same three functions, statement by statement, over the primitive
    binary64 floats: [+], [-], [*], [/] round to nearest even, comparisons
    are the IEEE ones (false on NaN), [float("inf")] is [infinity], and a
    division by [0.0] or [-0.0] raises [ZeroDivisionError]. *)

Module Binary64.

Local Open Scope float_scope.

(** [float(i)] for a Python [int], rounded to nearest even. *)
Definition float_of_int (i : Z) : float :=
  SF2Prim (binary_normalize prec emax i 0 false).

Definition fdiv (x y : float) : result float :=
  if y =? 0 then Raise ZeroDivisionError else Ok (x / y).

Definition level : Type := (float * float)%type.

Definition amm_spot_price (reserve0 reserve1 : float) : result float :=
  if reserve0 =? 0 then
    Raise (ValueError
      "reserve0 is zero — cannot calculate price from empty pool")
  else Ok (reserve1 / reserve0).

Definition amm_execution_price
    (reserve0 reserve1 amount_in fee_rate : float) (is_buy : bool)
  : result float :=
  let k := reserve0 * reserve1 in
  if is_buy then
    let amount_in_adjusted := amount_in * (1 - fee_rate) in
    let new_reserve1 := reserve1 + amount_in_adjusted in
    new_reserve0 ← fdiv k new_reserve1;
    let amount_out := reserve0 - new_reserve0 in
    if 0 <? amount_out then fdiv amount_in amount_out else Ok infinity
  else
    let amount_in_adjusted := amount_in * (1 - fee_rate) in
    let new_reserve0 := reserve0 + amount_in_adjusted in
    new_reserve1 ← fdiv k new_reserve0;
    let amount_out := reserve1 - new_reserve1 in
    if 0 <? amount_in then fdiv amount_out amount_in else Ok 0.

Definition level_body
    (reserve0 reserve1 fee_rate size_step k : float) (i : Z)
    (bid_levels ask_levels : list level)
  : result (option (list level * list level)) :=
  let trade_size := reserve0 * size_step * float_of_int i in
  if reserve0 - trade_size <=? 0 then Ok None
  else
    new_reserve1_ask ← fdiv k (reserve0 - trade_size);
    let amount_in_token1 := new_reserve1_ask - reserve1 in
    amount_in_with_fee ← fdiv amount_in_token1 (1 - fee_rate);
    ask_levels' ←
      (if 0 <? trade_size then
         ask_price ← fdiv amount_in_with_fee trade_size;
         Ok (ask_levels ++ [(ask_price, trade_size)])
       else Ok ask_levels);
    let amount_in_adjusted := trade_size * (1 - fee_rate) in
    new_reserve1_bid ← fdiv k (reserve0 + amount_in_adjusted);
    let amount_out_token1 := reserve1 - new_reserve1_bid in
    bid_levels' ←
      (if 0 <? trade_size then
         bid_price ← fdiv amount_out_token1 trade_size;
         Ok (bid_levels ++ [(bid_price, trade_size)])
       else Ok bid_levels);
    Ok (Some (bid_levels', ask_levels')).

Fixpoint for_levels
    (reserve0 reserve1 fee_rate size_step k : float) (idx : list Z)
    (bid_levels ask_levels : list level)
  : result (list level * list level) :=
  match idx with
  | [] => Ok (bid_levels, ask_levels)
  | i :: rest =>
      r ← level_body reserve0 reserve1 fee_rate size_step k i
            bid_levels ask_levels;
      match r with
      | None => Ok (bid_levels, ask_levels)
      | Some (bid_levels', ask_levels') =>
          for_levels reserve0 reserve1 fee_rate size_step k rest
            bid_levels' ask_levels'
      end
  end.

Definition calculate_amm_price_levels
    (reserve0 reserve1 fee_rate : float) (num_levels : Z) (size_step : float)
  : result (list level * list level) :=
  if orb (reserve0 <=? 0) (reserve1 <=? 0) then Ok ([], [])
  else
    let k := reserve0 * reserve1 in
    for_levels reserve0 reserve1 fee_rate size_step k
      (range 1 (num_levels + 1)) [] [].

(** [max(p for p, _ in levels)], [min(p for p, _ in levels)] and their
    difference, as the tests compute them; [None] on an empty list. *)
Definition prices (levels : list level) : list float := List.map fst levels.

Definition py_max (l : list float) : option float :=
  match l with
  | [] => None
  | x :: rest => Some (fold_left (fun m y => if m <? y then y else m) rest x)
  end.

Definition py_min (l : list float) : option float :=
  match l with
  | [] => None
  | x :: rest => Some (fold_left (fun m y => if y <? m then y else m) rest x)
  end.

Definition spread (bid_levels ask_levels : list level) : option float :=
  match py_min (prices ask_levels), py_max (prices bid_levels) with
  | Some a, Some b => Some (a - b)
  | _, _ => None
  end.




End Binary64.

(** ** dex_order_book_builder.py: the snapshot builder

    The framework's [OrderBookDelta], [OrderBookDelta.clear] and
    [OrderBookDeltas] are not part of the repository: an object is
    recorded as the constructor call that made it, with the arguments the
    source passes. *)

Module OrderBookSnapshot.

Import OrderBookBuilder.

Inductive BookAction : Type := ADD.

Section Snapshot.

Variable InstrumentId : Type.
Variable BookOrder : Type.

Inductive OrderBookDelta : Type :=
| (** [OrderBookDelta.clear(instrument_id, sequence, ts_event, ts_init)] *)
  DeltaClear (instrument_id : InstrumentId) (sequence ts_event ts_init : Z)
| (** [OrderBookDelta(instrument_id, action, order, flags, sequence,
      ts_event, ts_init)] *)
  Delta (instrument_id : InstrumentId) (action : BookAction)
        (order : option BookOrder) (flags sequence ts_event ts_init : Z).

(** [OrderBookDeltas(instrument_id=..., deltas=...)] *)
Record OrderBookDeltas : Type := {
  deltas_instrument_id : InstrumentId;
  deltas : list OrderBookDelta;
}.

(** [sorted(levels, key=key)]: a stable sort, here by insertion after the
    elements whose key is not larger. *)
Fixpoint insert_by_key (key : level -> Q) (x : level) (l : list level)
  : list level :=
  match l with
  | [] => [x]
  | y :: rest =>
      if Qlt_le_dec (key x) (key y) then x :: y :: rest
      else y :: insert_by_key key x rest
  end.

Definition py_sorted (key : level -> Q) (l : list level) : list level :=
  fold_left (fun acc x => insert_by_key key x acc) l [].

(** One of the two [for price, size in sorted(...)] loops: each pass
    appends an [ADD] delta and advances [sequence]. *)
Definition add_levels
    (instrument_id : InstrumentId) (ts_event ts_init : Z)
    (levels : list level) (state : list OrderBookDelta * Z)
  : list OrderBookDelta * Z :=
  fold_left
    (fun (state : list OrderBookDelta * Z) (lv : level) =>
       let '(deltas, sequence) := state in
       let delta :=
         Delta instrument_id ADD None 0 sequence ts_event ts_init in
       (deltas ++ [delta], (sequence + 1)%Z))
    levels state.

(** The [n] deltas [ADD] numbered [first], [first + 1], ..., named for
    the statements about the snapshot. *)
Definition add_run
    (instrument_id : InstrumentId) (ts_event ts_init first : Z) (n : nat)
  : list OrderBookDelta :=
  List.map
    (fun k => Delta instrument_id ADD None 0 (first + Z.of_nat k)%Z
                ts_event ts_init)
    (List.seq 0 n).

Definition build_order_book_snapshot
    (instrument_id : InstrumentId) (reserve0 reserve1 fee_rate : Q)
    (ts_event ts_init : Z) (num_levels : Z) (size_step : Q)
  : result OrderBookDeltas :=
  levels ← calculate_amm_price_levels reserve0 reserve1 fee_rate
             num_levels size_step;
  let '(bid_levels, ask_levels) := levels in
  let deltas : list OrderBookDelta := [] in
  let sequence := 0%Z in
  let clear_delta := DeltaClear instrument_id sequence ts_event ts_init in
  let deltas := deltas ++ [clear_delta] in
  let sequence := (sequence + 1)%Z in
  let '(deltas, sequence) :=
    add_levels instrument_id ts_event ts_init
      (py_sorted (fun x => - fst x)%Q bid_levels) (deltas, sequence) in
  let '(deltas, sequence) :=
    add_levels instrument_id ts_event ts_init
      (py_sorted (fun x => fst x) ask_levels) (deltas, sequence) in
  Ok {| deltas_instrument_id := instrument_id; deltas := deltas |}.

End Snapshot.

Arguments DeltaClear {InstrumentId BookOrder}.
Arguments Delta {InstrumentId BookOrder}.
Arguments deltas {InstrumentId BookOrder}.
Arguments deltas_instrument_id {InstrumentId BookOrder}.

End OrderBookSnapshot.

(** ** envelope.py *)

Module Envelope.

Definition PROTOCOL : string := "gep-a2a".
Definition PROTOCOL_VERSION : string := "1.0.0".

(** What [build_envelope] reads from outside: the hexadecimal digits of a
    fresh [uuid.uuid4()] and [datetime.now(timezone.utc).isoformat()]. *)
Record world : Type := {
  uuid4_hex : string;
  utc_now_isoformat : string;
}.

Definition generate_message_id (w : world) : string :=
  "msg_" +:+ String.substring 0 24 (uuid4_hex w).

Definition generate_node_id (w : world) : string :=
  "node_" +:+ String.substring 0 20 (uuid4_hex w).

Section Values.

(** [Any] stands for the Python objects that are not [str] (the payload
    dictionary among them); [str_of] is their [str()]. *)
Variable Any : Type.
Variable str_of : Any -> string.

(** A value stored in an envelope, of Python type [Any]. *)
Inductive pyobj : Type :=
| PyStr (s : string)
| PyOther (a : Any).

(** [str(v)], as an f-string formats it. *)
Definition py_str (v : pyobj) : string :=
  match v with
  | PyStr s => s
  | PyOther a => str_of a
  end.

(** [v != s] for a [str] constant [s]: an object that is not a [str] differs
    from every [str]. *)
Definition py_ne_str (v : pyobj) (s : string) : bool :=
  match v with
  | PyStr s' => negb (String.eqb s' s)
  | PyOther _ => true
  end.

Definition build_envelope
    (w : world) (message_type sender_id payload : pyobj)
    (message_id timestamp : option pyobj)
  : gmap string pyobj :=
  let message_id :=
    match message_id with
    | None => PyStr (generate_message_id w)
    | Some m => m
    end in
  let timestamp :=
    match timestamp with
    | None => PyStr (utc_now_isoformat w)
    | Some t => t
    end in
  list_to_map [
    ("protocol", PyStr PROTOCOL);
    ("protocol_version", PyStr PROTOCOL_VERSION);
    ("message_type", message_type);
    ("message_id", message_id);
    ("sender_id", sender_id);
    ("timestamp", timestamp);
    ("payload", payload)
  ].

Definition required_fields : list string := [
  "protocol";
  "protocol_version";
  "message_type";
  "message_id";
  "sender_id";
  "timestamp";
  "payload"
].

Definition validate_envelope (envelope : gmap string pyobj)
  : bool * list string :=
  let errors : list string := [] in
  let errors :=
    fold_left
      (fun errors field =>
         match envelope !! field with
         | None => errors ++ ["Missing required field: " +:+ field]
         | Some _ => errors
         end)
      required_fields errors in
  let errors :=
    match envelope !! "protocol" with
    | Some v =>
        if py_ne_str v PROTOCOL then
          errors ++ ["Invalid protocol: expected " +:+ PROTOCOL
                     +:+ ", got " +:+ py_str v]
        else errors
    | None => errors
    end in
  let errors :=
    match envelope !! "protocol_version" with
    | Some v =>
        if py_ne_str v PROTOCOL_VERSION then
          errors ++ ["Invalid protocol_version: expected "
                     +:+ PROTOCOL_VERSION +:+ ", got " +:+ py_str v]
        else errors
    | None => errors
    end in
  (Nat.eqb (length errors) 0, errors).

End Values.

Arguments PyStr {Any} s.
Arguments PyOther {Any} a.

End Envelope.

(** ** capsule_mapper.py

    The dictionaries and lists the mappers build are JSON values; a
    dictionary literal is the list of its items in source order.  A
    [str] is a sequence of characters, one [ascii] each.  SHA-256 and
    [json.dumps] are library code: [compute_content_hash] takes them as
    parameters. *)

Module CapsuleMapper.

Unset Elimination Schemes.

Inductive json : Type :=
| JStr (s : string)
| JInt (n : Z)
| JList (items : list json)
| JObj (items : list (string * json)).

Set Elimination Schemes.

(** [d[key]]; [None] where Python raises [KeyError] (or [d] is no
    dictionary). *)
Definition jget (key : string) (d : json) : option json :=
  match d with
  | JObj items =>
      match List.find (fun kv => String.eqb (fst kv) key) items with
      | Some kv => Some (snd kv)
      | None => None
      end
  | _ => None
  end.

(** [content[:limit] if len(content) > limit else content] *)
Definition preview (limit : nat) (content : string) : string :=
  if (limit <? String.length content)%nat
  then String.substring 0 limit content
  else content.

Section Mappers.

(** [hashlib.sha256(s.encode("utf-8")).hexdigest()] and
    [json.dumps(data, sort_keys=True, separators=(",", ":"))]. *)
Variable sha256_hexdigest : string -> string.
Variable json_dumps_canonical : json -> string.

(** From envelope.py. *)
Definition compute_content_hash (data : json) : string :=
  sha256_hexdigest (json_dumps_canonical data).

Definition map_section_delta
    (session_id section_id content : string) (metadata : option json)
  : json :=
  let metadata :=
    match metadata with
    | None => JObj []
    | Some m => m
    end in
  let gene_id := "gene_" +:+ session_id +:+ "_" +:+ section_id in
  let gene := JObj [
    ("id", JStr gene_id);
    ("type", JStr "gene");
    ("content_hash",
       JStr (compute_content_hash
               (JObj [("content", JStr content); ("metadata", metadata)])));
    ("data", JObj [
       ("section", JStr section_id);
       ("content_preview", JStr (preview 500 content));
       ("metadata", metadata)])
  ] in
  let capsule_id := "capsule_" +:+ session_id +:+ "_" +:+ section_id in
  let capsule := JObj [
    ("id", JStr capsule_id);
    ("type", JStr "capsule");
    ("content_hash",
       JStr (compute_content_hash
               (JObj [("genes", JList [JStr gene_id]);
                      ("session", JStr session_id)])));
    ("data", JObj [
       ("session_id", JStr session_id);
       ("section_id", JStr section_id);
       ("gene_refs", JList [JStr gene_id])])
  ] in
  let event_id := "event_" +:+ session_id +:+ "_" +:+ section_id in
  let evolution_event := JObj [
    ("id", JStr event_id);
    ("type", JStr "evolution_event");
    ("content_hash",
       JStr (compute_content_hash
               (JObj [("capsule", JStr capsule_id);
                      ("action", JStr "section_delta")])));
    ("data", JObj [
       ("capsule_ref", JStr capsule_id);
       ("action", JStr "section_delta");
       ("session_id", JStr session_id)])
  ] in
  JObj [
    ("assets", JList [gene; capsule; evolution_event]);
    ("metadata", JObj [
       ("session_id", JStr session_id);
       ("section_id", JStr section_id);
       ("bundle_type", JStr "brainstorming_delta")])
  ].

Definition map_design_doc
    (session_id design_doc_path content : string)
    (decisions : option (list json))
  : json :=
  let decisions :=
    match decisions with
    | None => []
    | Some d => d
    end in
  let gene_id := "gene_" +:+ session_id +:+ "_design_final" in
  let gene := JObj [
    ("id", JStr gene_id);
    ("type", JStr "gene");
    ("content_hash",
       JStr (compute_content_hash (JObj [("content", JStr content)])));
    ("data", JObj [
       ("type", JStr "design_document");
       ("path", JStr design_doc_path);
       ("content_preview", JStr (preview 1000 content))])
  ] in
  let capsule_id := "capsule_" +:+ session_id +:+ "_design_final" in
  let capsule := JObj [
    ("id", JStr capsule_id);
    ("type", JStr "capsule");
    ("content_hash",
       JStr (compute_content_hash
               (JObj [("genes", JList [JStr gene_id]);
                      ("decisions", JList decisions)])));
    ("data", JObj [
       ("session_id", JStr session_id);
       ("type", JStr "final_design");
       ("gene_refs", JList [JStr gene_id]);
       ("decision_count", JInt (Z.of_nat (length decisions)))])
  ] in
  let event_id := "event_" +:+ session_id +:+ "_design_final" in
  let evolution_event := JObj [
    ("id", JStr event_id);
    ("type", JStr "evolution_event");
    ("content_hash",
       JStr (compute_content_hash
               (JObj [("capsule", JStr capsule_id);
                      ("action", JStr "design_finalized")])));
    ("data", JObj [
       ("capsule_ref", JStr capsule_id);
       ("action", JStr "design_finalized");
       ("session_id", JStr session_id);
       ("decisions", JList decisions)])
  ] in
  JObj [
    ("assets", JList [gene; capsule; evolution_event]);
    ("metadata", JObj [
       ("session_id", JStr session_id);
       ("bundle_type", JStr "final_design");
       ("doc_path", JStr design_doc_path)])
  ].

End Mappers.

Definition map_decision_report
    (session_id : string) (accepted rejected refined : list string) : json :=
  JObj [
    ("session_id", JStr session_id);
    ("decisions", JObj [
       ("accepted", JList (List.map JStr accepted));
       ("rejected", JList (List.map JStr rejected));
       ("refined", JList (List.map JStr refined))]);
    ("counts", JObj [
       ("accepted", JInt (Z.of_nat (length accepted)));
       ("rejected", JInt (Z.of_nat (length rejected)));
       ("refined", JInt (Z.of_nat (length refined)))])
  ].

(** [asset[k1][k2]] *)
Definition jget2 (k1 k2 : string) (d : json) : option json :=
  match jget k1 d with
  | Some d' => jget k2 d'
  | None => None
  end.

(** A bundle whose references resolve: three assets, a gene, a capsule
    and an evolution event in this order, with three different ids; the
    capsule refers to the gene alone and the event to the capsule. *)
Definition well_linked (bundle : json) : Prop :=
  exists gene capsule event : json,
  exists gene_id capsule_id event_id : string,
    jget "assets" bundle = Some (JList [gene; capsule; event])
    /\ jget "id" gene = Some (JStr gene_id)
    /\ jget "id" capsule = Some (JStr capsule_id)
    /\ jget "id" event = Some (JStr event_id)
    /\ jget "type" gene = Some (JStr "gene")
    /\ jget "type" capsule = Some (JStr "capsule")
    /\ jget "type" event = Some (JStr "evolution_event")
    /\ jget2 "data" "gene_refs" capsule = Some (JList [JStr gene_id])
    /\ jget2 "data" "capsule_ref" event = Some (JStr capsule_id)
    /\ gene_id <> capsule_id /\ gene_id <> event_id
    /\ capsule_id <> event_id.

End CapsuleMapper.

(** ** Arithmetic helpers *)

Section Arith.

Local Open Scope Q_scope.

Lemma fdiv_ok (x y : Q) : ~ y == 0 -> fdiv x y = Ok (x / y).
Proof.
  intros Hy. unfold fdiv.
  destruct (Qeq_bool y 0) eqn:E; [|reflexivity].
  apply Qeq_bool_iff in E. contradiction.
Qed.

Lemma fdiv_zero (x y : Q) : y == 0 -> fdiv x y = Raise ZeroDivisionError.
Proof.
  intros Hy. unfold fdiv. apply Qeq_bool_iff in Hy. now rewrite Hy.
Qed.

Lemma fdiv_pos (x y : Q) : 0 < y -> fdiv x y = Ok (x / y).
Proof. intros Hy. apply fdiv_ok. lra. Qed.

(** Comparing two quotients with positive denominators by cross
    multiplication. *)
Lemma Qdiv_lt_cross (a b c d : Q) :
  0 < b -> 0 < d -> a * d < c * b -> a / b < c / d.
Proof.
  intros Hb Hd H.
  apply Qlt_shift_div_r; [assumption|].
  assert (E : c / d * b == (c * b) / d) by (field; lra).
  rewrite E. apply Qlt_shift_div_l; assumption.
Qed.

Lemma Qle_bool_false (x y : Q) : Qle_bool x y = false <-> y < x.
Proof.
  split.
  - intros E. apply Qnot_le_lt. intros H. apply Qle_bool_iff in H. congruence.
  - intros H. destruct (Qle_bool x y) eqn:E; [|reflexivity].
    apply Qle_bool_iff in E. lra.
Qed.

End Arith.

(** Positivity of a product whose factors are positive by linear
    arithmetic. *)
Ltac qpos :=
  solve [ lra
        | apply Qmult_lt_0_compat; qpos
        | apply Qmult_le_0_compat; qpos ].

(** ** Closed forms of the constant-product prices *)

Section ClosedForms.

Local Open Scope Q_scope.

Variables reserve0 reserve1 fee_rate : Q.
Hypothesis Hr0 : 0 < reserve0.
Hypothesis Hr1 : 0 < reserve1.
Hypothesis Hfee0 : 0 <= fee_rate.
Hypothesis Hfee1 : fee_rate < 1.

Local Abbreviation buy_expr := (buy_expr reserve0 reserve1 fee_rate).
Local Abbreviation sell_expr := (sell_expr reserve0 reserve1 fee_rate).

Lemma buy_amount_out_pos (a : Q) :
  0 < a ->
  0 < reserve0 - reserve0 * reserve1 / (reserve1 + a * (1 - fee_rate)).
Proof.
  intros Ha.
  assert (Hd : 0 < reserve1 + a * (1 - fee_rate)) by (assert (0 < a * (1 - fee_rate)) by qpos; lra).
  assert (E : reserve0 - reserve0 * reserve1 / (reserve1 + a * (1 - fee_rate))
              == (reserve0 * (a * (1 - fee_rate)))
                 / (reserve1 + a * (1 - fee_rate))) by (field; lra).
  rewrite E. apply Qlt_shift_div_l; [assumption|].
  assert (Hx : 0 < a * (1 - fee_rate)) by (apply Qmult_lt_0_compat; lra).
  pose proof (Qmult_lt_0_compat _ _ Hr0 Hx). lra.
Qed.

Lemma buy_expr_closed (a : Q) :
  0 < a ->
  buy_expr a == (reserve1 + a * (1 - fee_rate)) / (reserve0 * (1 - fee_rate)).
Proof.
  intros Ha. unfold buy_expr.
  assert (Hd : 0 < reserve1 + a * (1 - fee_rate)) by (assert (0 < a * (1 - fee_rate)) by qpos; lra).
  assert (Hx : 0 < a * (1 - fee_rate)) by (apply Qmult_lt_0_compat; lra).
  pose proof (Qmult_lt_0_compat _ _ Hr0 Hx) as Hy.
  field. repeat split; lra.
Qed.

Lemma sell_expr_closed (a : Q) :
  0 < a ->
  sell_expr a
  == (reserve1 * (1 - fee_rate)) / (reserve0 + a * (1 - fee_rate)).
Proof.
  intros Ha. unfold sell_expr.
  assert (Hd : 0 < reserve0 + a * (1 - fee_rate)) by (assert (0 < a * (1 - fee_rate)) by qpos; lra).
  field. split; lra.
Qed.

Lemma amm_execution_price_buy (a : Q) :
  0 < a ->
  amm_execution_price reserve0 reserve1 a fee_rate true = Ok (Fin (buy_expr a)).
Proof.
  intros Ha. unfold amm_execution_price.
  assert (Hd : 0 < reserve1 + a * (1 - fee_rate)) by (assert (0 < a * (1 - fee_rate)) by qpos; lra).
  rewrite fdiv_pos by assumption. cbn.
  pose proof (buy_amount_out_pos a Ha) as Hout.
  destruct (Qlt_le_dec _ _) as [_|Hle]; [|lra].
  rewrite fdiv_pos by assumption. reflexivity.
Qed.

Lemma amm_execution_price_sell (a : Q) :
  0 < a ->
  amm_execution_price reserve0 reserve1 a fee_rate false
  = Ok (Fin (sell_expr a)).
Proof.
  intros Ha. unfold amm_execution_price.
  assert (Hd : 0 < reserve0 + a * (1 - fee_rate)) by (assert (0 < a * (1 - fee_rate)) by qpos; lra).
  rewrite fdiv_pos by assumption. cbn.
  destruct (Qlt_le_dec _ _) as [_|Hle]; [|lra].
  rewrite fdiv_pos by assumption. reflexivity.
Qed.

Lemma amm_spot_price_pos :
  amm_spot_price reserve0 reserve1 = Ok (reserve1 / reserve0).
Proof.
  unfold amm_spot_price.
  destruct (Qeq_bool reserve0 0) eqn:E; [|reflexivity].
  apply Qeq_bool_iff in E. lra.
Qed.

Lemma buy_above_spot (a : Q) : 0 < a -> reserve1 / reserve0 < buy_expr a.
Proof.
  intros Ha. rewrite buy_expr_closed by assumption.
  assert (P1 : 0 <= reserve1 * reserve0 * fee_rate) by qpos.
  assert (P2 : 0 < a * (1 - fee_rate) * reserve0) by qpos.
  apply Qdiv_lt_cross; [lra | qpos | lra].
Qed.

Lemma sell_below_spot (a : Q) : 0 < a -> sell_expr a < reserve1 / reserve0.
Proof.
  intros Ha. rewrite sell_expr_closed by assumption.
  assert (P1 : 0 <= reserve1 * reserve0 * fee_rate) by qpos.
  assert (P2 : 0 < reserve1 * a * (1 - fee_rate)) by qpos.
  assert (P3 : 0 < a * (1 - fee_rate)) by qpos.
  apply Qdiv_lt_cross; lra.
Qed.

Lemma buy_expr_increasing (a1 a2 : Q) :
  0 < a1 -> a1 < a2 -> buy_expr a1 < buy_expr a2.
Proof.
  intros H1 H2. rewrite !buy_expr_closed by lra.
  assert (P1 : 0 < reserve0 * (1 - fee_rate)) by qpos.
  assert (P2 : 0 < (a2 - a1) * (1 - fee_rate) * (reserve0 * (1 - fee_rate)))
    by qpos.
  apply Qdiv_lt_cross; lra.
Qed.

Lemma sell_expr_decreasing (a1 a2 : Q) :
  0 < a1 -> a1 < a2 -> sell_expr a2 < sell_expr a1.
Proof.
  intros H1 H2. rewrite !sell_expr_closed by lra.
  assert (P1 : 0 < a1 * (1 - fee_rate)) by qpos.
  assert (P2 : 0 < a2 * (1 - fee_rate)) by qpos.
  assert (P3 : 0 < reserve1 * (1 - fee_rate) * ((a2 - a1) * (1 - fee_rate)))
    by qpos.
  apply Qdiv_lt_cross; lra.
Qed.

End ClosedForms.

(** ** Spot price and execution price *)

Section Pricing.

Local Open Scope Q_scope.

(** C6. For [reserve0 > 0] and [reserve1 > 0], [amm_spot_price] returns
    exactly [reserve1 / reserve0].  The function is a pure function of its
    two arguments: it has no state to change. *)
Theorem amm_spot_price_returns_quotient (reserve0 reserve1 : Q) :
  0 < reserve0 -> 0 < reserve1 ->
  amm_spot_price reserve0 reserve1 = Ok (reserve1 / reserve0).
Proof. intros H0 H1. now apply amm_spot_price_pos. Qed.

Lemma amm_spot_price_returns_quotient_witness :
  amm_spot_price 1000 3000000 = Ok (3000000 / 1000).
Proof. apply amm_spot_price_returns_quotient; reflexivity. Defined.

(** C7, as stated, fails: a negative [reserve0] raises nothing.
    [amm_spot_price(-1.0, 5.0)] returns [5.0 / -1.0]. *)
Lemma amm_spot_price_negative_reserve_returns :
  amm_spot_price (-1) 5 = Ok (-5)
  /\ ~ (forall reserve0 reserve1 : Q,
          reserve0 <= 0 ->
          exists e, amm_spot_price reserve0 reserve1 = Raise e).
Proof.
  split; [reflexivity|].
  intros H. destruct (H (-1) 5) as [e He]; [discriminate|].
  vm_compute in He. discriminate.
Qed.

(** C7, amended. [amm_spot_price] raises exactly when [reserve0 == 0], for
    any [reserve1]: the exception is a [ValueError] whose message contains
    "reserve0 is zero".  For every other [reserve0], negative ones
    included, it returns [reserve1 / reserve0]. *)
Theorem amm_spot_price_raises_iff_zero (reserve0 reserve1 : Q) :
  (reserve0 == 0 ->
   exists msg,
     amm_spot_price reserve0 reserve1 = Raise (ValueError msg)
     /\ str_contains "reserve0 is zero" msg = true)
  /\ (~ reserve0 == 0 ->
      amm_spot_price reserve0 reserve1 = Ok (reserve1 / reserve0)).
Proof.
  unfold amm_spot_price. split; intros H.
  - apply Qeq_bool_iff in H. rewrite H. eexists. split; reflexivity.
  - destruct (Qeq_bool reserve0 0) eqn:E; [|reflexivity].
    apply Qeq_bool_iff in E. contradiction.
Qed.

Lemma amm_spot_price_raises_iff_zero_witness :
  (exists msg,
     amm_spot_price 0 1000000 = Raise (ValueError msg)
     /\ str_contains "reserve0 is zero" msg = true)
  /\ amm_spot_price (-1) 5 = Ok (5 / -1).
Proof.
  split.
  - apply (proj1 (amm_spot_price_raises_iff_zero 0 1000000)). reflexivity.
  - apply (proj2 (amm_spot_price_raises_iff_zero (-1) 5)). discriminate.
Defined.

(** C2. [amm_execution_price] returns exactly the value of the reference
    formula, wherever the constant-product quotient [k / new_reserve] is
    defined (and, for a sell, the amount is not negative). *)
Theorem amm_execution_price_is_reference
    (reserve0 reserve1 amount_in fee_rate : Q) (is_buy : bool) :
  ~ new_reserve reserve0 reserve1 amount_in fee_rate is_buy == 0 ->
  (is_buy = false -> 0 <= amount_in) ->
  amm_execution_price reserve0 reserve1 amount_in fee_rate is_buy
  = Ok (reference_price reserve0 reserve1 amount_in fee_rate is_buy).
Proof.
  intros Hd Ha. unfold amm_execution_price, reference_price, new_reserve in *.
  destruct is_buy.
  - rewrite fdiv_ok by assumption. cbn.
    destruct (Qlt_le_dec _ _) as [Hout|Hout]; [|reflexivity].
    rewrite fdiv_pos by assumption. reflexivity.
  - specialize (Ha eq_refl).
    rewrite fdiv_ok by assumption. cbn.
    destruct (Qlt_le_dec 0 amount_in) as [Hpos|Hle].
    + rewrite fdiv_pos by assumption. cbn.
      destruct (Qeq_bool amount_in 0) eqn:E; [|reflexivity].
      apply Qeq_bool_iff in E. lra.
    + assert (E : amount_in == 0) by lra.
      apply Qeq_bool_iff in E. now rewrite E.
Qed.

Lemma amm_execution_price_is_reference_witness :
  amm_execution_price 1000 3000000 100 (3 # 1000) true
  = Ok (reference_price 1000 3000000 100 (3 # 1000) true)
  /\ amm_execution_price 1000 3000000 0 (3 # 1000) false
     = Ok (reference_price 1000 3000000 0 (3 # 1000) false).
Proof.
  split; apply amm_execution_price_is_reference;
    solve [ vm_compute; discriminate | intros _; vm_compute; discriminate ].
Defined.

(** Where the quotient [k / new_reserve] has a zero divisor the function
    raises, as every Python float division by zero does. *)
Lemma amm_execution_price_zero_divisor
    (reserve0 reserve1 amount_in fee_rate : Q) (is_buy : bool) :
  new_reserve reserve0 reserve1 amount_in fee_rate is_buy == 0 ->
  amm_execution_price reserve0 reserve1 amount_in fee_rate is_buy
  = Raise ZeroDivisionError.
Proof.
  intros Hd. unfold amm_execution_price, new_reserve in *.
  destruct is_buy; now rewrite fdiv_zero.
Qed.

(** A trade that pays nothing into the curve receives nothing:
    [amount_out] is not positive and the buy price is [float("inf")]. *)
Example amm_execution_price_full_fee :
  amm_execution_price 1000 3000000 100 1 true = Ok Inf.
Proof. reflexivity. Qed.

(** Exact arithmetic only (the binary64 code differs, see [Binary64]).
    On a valid pool, any positive trade executes strictly above the
    spot price when buying and strictly below it when selling. *)
Theorem amm_execution_price_worse_than_spot
    (reserve0 reserve1 fee_rate amount_in : Q) :
  0 < reserve0 -> 0 < reserve1 -> 0 <= fee_rate -> fee_rate < 1 ->
  0 < amount_in ->
  exists spot buy sell : Q,
    amm_spot_price reserve0 reserve1 = Ok spot
    /\ amm_execution_price reserve0 reserve1 amount_in fee_rate true
       = Ok (Fin buy)
    /\ amm_execution_price reserve0 reserve1 amount_in fee_rate false
       = Ok (Fin sell)
    /\ spot < buy
    /\ sell < spot.
Proof.
  intros H0 H1 Hf0 Hf1 Ha.
  exists (reserve1 / reserve0),
         (buy_expr reserve0 reserve1 fee_rate amount_in),
         (sell_expr reserve0 reserve1 fee_rate amount_in).
  split; [now apply amm_spot_price_pos|].
  split; [now apply amm_execution_price_buy|].
  split; [now apply amm_execution_price_sell|].
  split; [now apply buy_above_spot | now apply sell_below_spot].
Qed.

Lemma amm_execution_price_worse_than_spot_witness :
  exists spot buy sell : Q,
    amm_spot_price 1000 3000000 = Ok spot
    /\ amm_execution_price 1000 3000000 100 (3 # 1000) true = Ok (Fin buy)
    /\ amm_execution_price 1000 3000000 100 (3 # 1000) false = Ok (Fin sell)
    /\ spot < buy
    /\ sell < spot.
Proof.
  apply amm_execution_price_worse_than_spot; reflexivity || discriminate.
Defined.

(** Exact arithmetic only (the binary64 code differs, see [Binary64]).
    On a valid pool the execution price is strictly monotone in the
    amount, against the trader: of two positive amounts the larger buys at
    a strictly higher price and sells at a strictly lower one. *)
Theorem amm_execution_price_monotone
    (reserve0 reserve1 fee_rate a1 a2 : Q) :
  0 < reserve0 -> 0 < reserve1 -> 0 <= fee_rate -> fee_rate < 1 ->
  0 < a1 -> a1 < a2 ->
  exists buy1 buy2 sell1 sell2 : Q,
    amm_execution_price reserve0 reserve1 a1 fee_rate true = Ok (Fin buy1)
    /\ amm_execution_price reserve0 reserve1 a2 fee_rate true = Ok (Fin buy2)
    /\ amm_execution_price reserve0 reserve1 a1 fee_rate false
       = Ok (Fin sell1)
    /\ amm_execution_price reserve0 reserve1 a2 fee_rate false
       = Ok (Fin sell2)
    /\ buy1 < buy2
    /\ sell2 < sell1.
Proof.
  intros H0 H1 Hf0 Hf1 Ha1 Ha12.
  assert (Ha2 : 0 < a2) by lra.
  exists (buy_expr reserve0 reserve1 fee_rate a1),
         (buy_expr reserve0 reserve1 fee_rate a2),
         (sell_expr reserve0 reserve1 fee_rate a1),
         (sell_expr reserve0 reserve1 fee_rate a2).
  repeat split;
    auto using amm_execution_price_buy, amm_execution_price_sell,
               buy_expr_increasing, sell_expr_decreasing.
Qed.

Lemma amm_execution_price_monotone_witness :
  exists buy1 buy2 sell1 sell2 : Q,
    amm_execution_price 1000 3000000 100 (3 # 1000) true = Ok (Fin buy1)
    /\ amm_execution_price 1000 3000000 100000 (3 # 1000) true
       = Ok (Fin buy2)
    /\ amm_execution_price 1000 3000000 100 (3 # 1000) false = Ok (Fin sell1)
    /\ amm_execution_price 1000 3000000 100000 (3 # 1000) false
       = Ok (Fin sell2)
    /\ buy1 < buy2
    /\ sell2 < sell1.
Proof.
  apply amm_execution_price_monotone; reflexivity || discriminate.
Defined.

End Pricing.

(** ** Rung prices *)

Section Rungs.

Local Open Scope Q_scope.

Variables reserve0 reserve1 : Q.
Hypothesis Hr0 : 0 < reserve0.
Hypothesis Hr1 : 0 < reserve1.

Lemma ask_expr_closed (fee_rate t : Q) :
  fee_rate < 1 -> 0 < t -> t < reserve0 ->
  ask_expr reserve0 reserve1 fee_rate t
  == reserve1 / ((reserve0 - t) * (1 - fee_rate)).
Proof.
  intros Hf Ht Htr. unfold ask_expr. field. repeat split; lra.
Qed.

Lemma ask_above_spot (fee_rate t : Q) :
  0 <= fee_rate -> fee_rate < 1 -> 0 < t -> t < reserve0 ->
  reserve1 / reserve0 < ask_expr reserve0 reserve1 fee_rate t.
Proof.
  intros Hf0 Hf1 Ht Htr. rewrite ask_expr_closed by assumption.
  assert (P1 : 0 < (reserve0 - t) * (1 - fee_rate)) by qpos.
  assert (P2 : 0 <= reserve1 * (reserve0 - t) * fee_rate) by qpos.
  assert (P3 : 0 < reserve1 * t) by qpos.
  apply Qdiv_lt_cross; lra.
Qed.

Lemma ask_expr_fee_increasing (f1 f2 t : Q) :
  f1 < f2 -> f2 < 1 -> 0 < t -> t < reserve0 ->
  ask_expr reserve0 reserve1 f1 t < ask_expr reserve0 reserve1 f2 t.
Proof.
  intros H12 H2 Ht Htr. rewrite !ask_expr_closed by lra.
  assert (P1 : 0 < (reserve0 - t) * (1 - f1)) by qpos.
  assert (P2 : 0 < (reserve0 - t) * (1 - f2)) by qpos.
  assert (P3 : 0 < reserve1 * (reserve0 - t) * (f2 - f1)) by qpos.
  apply Qdiv_lt_cross; lra.
Qed.

Lemma sell_expr_fee_decreasing (f1 f2 t : Q) :
  0 <= f1 -> f1 < f2 -> f2 < 1 -> 0 < t ->
  sell_expr reserve0 reserve1 f2 t < sell_expr reserve0 reserve1 f1 t.
Proof.
  intros H1 H12 H2 Ht.
  rewrite !(sell_expr_closed reserve0 reserve1) by lra.
  assert (P1 : 0 < t * (1 - f1)) by qpos.
  assert (P2 : 0 < t * (1 - f2)) by qpos.
  assert (P3 : 0 < reserve1 * reserve0 * (f2 - f1)) by qpos.
  apply Qdiv_lt_cross; lra.
Qed.

(** A pass at a size strictly inside the pool appends one rung to each
    side. *)
Lemma level_body_inside (fee_rate size_step : Q) (i : Z) (b a : list level) :
  0 <= fee_rate -> fee_rate < 1 ->
  0 < reserve0 * size_step * inject_Z i ->
  reserve0 * size_step * inject_Z i < reserve0 ->
  level_body reserve0 reserve1 fee_rate size_step (reserve0 * reserve1) i b a
  = Ok (Some
      (b ++ [bid_level reserve0 reserve1 fee_rate
               (reserve0 * size_step * inject_Z i)],
       a ++ [ask_level reserve0 reserve1 fee_rate
               (reserve0 * size_step * inject_Z i)])).
Proof.
  intros Hf0 Hf1 Ht Htr. unfold level_body.
  set (t := reserve0 * size_step * inject_Z i) in *.
  assert (E : Qle_bool (reserve0 - t) 0 = false)
    by (apply Qle_bool_false; lra).
  rewrite E.
  rewrite (fdiv_pos _ (reserve0 - t)) by lra. cbn.
  rewrite (fdiv_pos _ (1 - fee_rate)) by lra. cbn.
  destruct (Qlt_le_dec 0 t) as [_|Hle]; [|lra].
  rewrite !(fdiv_pos _ t) by assumption. cbn.
  assert (P : 0 < t * (1 - fee_rate)) by qpos.
  rewrite (fdiv_pos _ (reserve0 + t * (1 - fee_rate))) by lra. cbn.
  rewrite (fdiv_pos _ t) by assumption. cbn.
  reflexivity.
Qed.

End Rungs.

(** ** [max] and [min] of a list of prices *)

Section Extrema.

Local Open Scope Q_scope.

Lemma fold_max_spec (rest : list Q) : forall x : Q,
  let m := fold_left (fun m y => if Qlt_le_dec m y then y else m) rest x in
  (m = x \/ In m rest) /\ x <= m /\ Forall (fun y => y <= m) rest.
Proof.
  induction rest as [|y r IH]; intros x; cbn.
  - repeat split; [now left | lra | constructor].
  - destruct (IH (if Qlt_le_dec x y then y else x)) as (Hin & Hle & Hall).
    cbn in Hin, Hle, Hall.
    set (m := fold_left _ r _) in *.
    destruct (Qlt_le_dec x y) as [Hxy|Hxy].
    + repeat split; [destruct Hin; auto | lra | constructor; [lra|assumption]].
    + repeat split; [destruct Hin; auto | lra | constructor; [lra|assumption]].
Qed.

Lemma fold_min_spec (rest : list Q) : forall x : Q,
  let m := fold_left (fun m y => if Qlt_le_dec y m then y else m) rest x in
  (m = x \/ In m rest) /\ m <= x /\ Forall (fun y => m <= y) rest.
Proof.
  induction rest as [|y r IH]; intros x; cbn.
  - repeat split; [now left | lra | constructor].
  - destruct (IH (if Qlt_le_dec y x then y else x)) as (Hin & Hle & Hall).
    cbn in Hin, Hle, Hall.
    set (m := fold_left _ r _) in *.
    destruct (Qlt_le_dec y x) as [Hxy|Hxy].
    + repeat split; [destruct Hin; auto | lra | constructor; [lra|assumption]].
    + repeat split; [destruct Hin; auto | lra | constructor; [lra|assumption]].
Qed.

(** [py_max] returns an element of the list that bounds it from above. *)
Lemma py_max_spec (l : list Q) (m : Q) :
  py_max l = Some m -> In m l /\ Forall (fun y => y <= m) l.
Proof.
  destruct l as [|x rest]; [discriminate|]. cbn. intros [= <-].
  destruct (fold_max_spec rest x) as (Hin & Hle & Hall). cbn in *.
  split; [destruct Hin as [->|Hin]; auto | constructor; assumption].
Qed.

(** [py_min] returns an element of the list that bounds it from below. *)
Lemma py_min_spec (l : list Q) (m : Q) :
  py_min l = Some m -> In m l /\ Forall (fun y => m <= y) l.
Proof.
  destruct l as [|x rest]; [discriminate|]. cbn. intros [= <-].
  destruct (fold_min_spec rest x) as (Hin & Hle & Hall). cbn in *.
  split; [destruct Hin as [->|Hin]; auto | constructor; assumption].
Qed.

Lemma py_max_nonempty (l : list Q) : l <> [] -> exists m, py_max l = Some m.
Proof. destruct l; [congruence|]. intros _. cbn. eauto. Qed.

Lemma py_min_nonempty (l : list Q) : l <> [] -> exists m, py_min l = Some m.
Proof. destruct l; [congruence|]. intros _. cbn. eauto. Qed.

End Extrema.

(** ** The level loop *)

Section Loop.

Local Open Scope Q_scope.

Lemma range_lower (lo hi : Z) : Forall (fun i => (lo <= i)%Z) (range lo hi).
Proof.
  unfold range. apply List.Forall_forall. intros i Hi.
  apply in_map_iff in Hi. destruct Hi as (n & <- & _). lia.
Qed.

Lemma inject_Z_pos (i : Z) : (1 <= i)%Z -> 1 <= inject_Z i.
Proof. intros H. change 1 with (inject_Z 1). now rewrite <- Zle_Qle. Qed.

Lemma trade_size_pos (reserve0 size_step : Q) (i : Z) :
  0 < reserve0 -> 0 < size_step -> (1 <= i)%Z ->
  0 < reserve0 * size_step * inject_Z i.
Proof.
  intros H0 Hs Hi. pose proof (inject_Z_pos i Hi). qpos.
Qed.

Lemma trade_size_nonpos (reserve0 size_step : Q) (i : Z) :
  0 < reserve0 -> size_step <= 0 -> (1 <= i)%Z ->
  reserve0 * size_step * inject_Z i <= 0.
Proof.
  intros H0 Hs Hi. pose proof (inject_Z_pos i Hi).
  assert (P : 0 <= reserve0 * (- size_step) * inject_Z i) by qpos.
  lra.
Qed.

(** Every completed pass trades a size strictly inside the pool. *)
Lemma executed_sizes_inside (reserve0 size_step : Q) (idx : list Z) :
  0 < reserve0 -> 0 < size_step -> Forall (fun i => (1 <= i)%Z) idx ->
  Forall (fun t => 0 < t /\ t < reserve0)
         (executed_sizes reserve0 size_step idx).
Proof.
  intros H0 Hs. induction 1 as [|i rest Hi _ IH]; cbn; [constructor|].
  destruct (Qle_bool _ 0) eqn:E; [constructor|].
  apply Qle_bool_false in E.
  constructor; [|assumption].
  split; [now apply trade_size_pos | lra].
Qed.

(** On a valid pool with a positive step, the loop returns one bid rung
    and one ask rung per completed pass, in the order of the passes. *)
Lemma for_levels_closed
    (reserve0 reserve1 fee_rate size_step : Q) (idx : list Z) :
  0 < reserve0 -> 0 < reserve1 -> 0 <= fee_rate -> fee_rate < 1 ->
  0 < size_step -> Forall (fun i => (1 <= i)%Z) idx ->
  forall b a : list level,
    for_levels reserve0 reserve1 fee_rate size_step (reserve0 * reserve1)
      idx b a
    = Ok (b ++ List.map (bid_level reserve0 reserve1 fee_rate)
                 (executed_sizes reserve0 size_step idx),
          a ++ List.map (ask_level reserve0 reserve1 fee_rate)
                 (executed_sizes reserve0 size_step idx)).
Proof.
  intros H0 H1 Hf0 Hf1 Hs. induction 1 as [|i rest Hi _ IH]; intros b a; cbn.
  - now rewrite !app_nil_r.
  - destruct (Qle_bool (reserve0 - reserve0 * size_step * inject_Z i) 0)
      eqn:E.
    + unfold level_body. rewrite E. cbn. now rewrite !app_nil_r.
    + apply Qle_bool_false in E.
      rewrite level_body_inside
        by (assumption || lra || now apply trade_size_pos).
      cbn. rewrite IH. cbn. now rewrite <- !app_assoc.
Qed.

(** With a step that is not positive no pass appends anything. *)
Lemma for_levels_nonpos_step
    (reserve0 reserve1 fee_rate size_step k : Q) (idx : list Z) :
  0 < reserve0 -> size_step <= 0 -> Forall (fun i => (1 <= i)%Z) idx ->
  forall b a b' a' : list level,
    for_levels reserve0 reserve1 fee_rate size_step k idx b a = Ok (b', a') ->
    b' = b /\ a' = a.
Proof.
  intros H0 Hs. induction 1 as [|i rest Hi _ IH]; intros b a b' a'; cbn.
  - intros E. inversion E. auto.
  - pose proof (trade_size_nonpos reserve0 size_step i H0 Hs Hi) as Ht.
    unfold level_body.
    set (t := reserve0 * size_step * inject_Z i) in *.
    destruct (Qle_bool _ 0); cbn; [intros E; inversion E; auto|].
    destruct (fdiv k (reserve0 - t)); cbn; [|discriminate].
    destruct (fdiv _ (1 - fee_rate)); cbn; [|discriminate].
    destruct (Qlt_le_dec 0 t) as [Hpos|_]; [lra|]. cbn.
    destruct (fdiv k (reserve0 + _)); cbn; [|discriminate].
    apply IH.
Qed.

End Loop.

(** ** The synthetic book *)

Section Book.

Local Open Scope Q_scope.

(** What one pass of the loop can do: stop the loop, append one rung to
    each side, leave both sides as they are (a size that is not positive),
    or raise on a zero divisor. *)
Lemma level_body_cases
    (reserve0 reserve1 fee_rate size_step k : Q) (i : Z)
    (b a : list level) :
  let t := reserve0 * size_step * inject_Z i in
  match level_body reserve0 reserve1 fee_rate size_step k i b a with
  | Ok None => reserve0 - t <= 0
  | Ok (Some (b', a')) =>
      0 < reserve0 - t
      /\ ((0 < t /\ exists bid_price ask_price,
             b' = b ++ [(bid_price, t)] /\ a' = a ++ [(ask_price, t)])
          \/ (t <= 0 /\ b' = b /\ a' = a))
  | Raise e => 0 < reserve0 - t /\ e = ZeroDivisionError
  end.
Proof.
  intros t. unfold level_body. fold t.
  destruct (Qle_bool (reserve0 - t) 0) eqn:E.
  { now apply Qle_bool_iff in E. }
  apply Qle_bool_false in E.
  unfold fdiv.
  destruct (Qeq_bool (reserve0 - t) 0); cbn; [auto|].
  destruct (Qeq_bool (1 - fee_rate) 0); cbn; [auto|].
  destruct (Qlt_le_dec 0 t) as [Hpos|Hle]; cbn.
  - destruct (Qeq_bool t 0); cbn; [auto|].
    destruct (Qeq_bool (reserve0 + _) 0); cbn; [auto|].
    split; [assumption|]. left. split; [assumption|]. eauto.
  - destruct (Qeq_bool (reserve0 + _) 0); cbn; [auto|].
    split; [assumption|]. right. auto.
Qed.

(** The two sides grow together: same sizes, in the same order. *)
Lemma for_levels_sizes
    (reserve0 reserve1 fee_rate size_step k : Q) (idx : list Z) :
  forall b a b' a' : list level,
    for_levels reserve0 reserve1 fee_rate size_step k idx b a = Ok (b', a') ->
    List.map snd b = List.map snd a ->
    List.map snd b' = List.map snd a'.
Proof.
  induction idx as [|i rest IH]; intros b a b' a'; cbn.
  - intros E. inversion E. auto.
  - pose proof (level_body_cases reserve0 reserve1 fee_rate size_step k i b a)
      as Hc. cbn in Hc.
    destruct (level_body _ _ _ _ _ _ _ _) as [[[b1 a1]|]|e]; cbn.
    + intros Hrest Hba. apply (IH _ _ _ _ Hrest).
      destruct Hc as (_ & [(_ & bp & ap & -> & ->)|(_ & -> & ->)]);
        [|assumption].
      rewrite !List.map_app. cbn. f_equal. exact Hba.
    + intros E. inversion E. auto.
    + discriminate.
Qed.

(** C8. With [reserve0 <= 0] or [reserve1 <= 0] the generator returns two
    empty lists and raises nothing, whatever the other arguments. *)
Theorem calculate_amm_price_levels_empty_pool
    (reserve0 reserve1 fee_rate : Q) (num_levels : Z) (size_step : Q) :
  reserve0 <= 0 \/ reserve1 <= 0 ->
  calculate_amm_price_levels reserve0 reserve1 fee_rate num_levels size_step
  = Ok ([], []).
Proof.
  intros H. unfold calculate_amm_price_levels.
  destruct H as [H|H]; apply Qle_bool_iff in H; rewrite H;
    [reflexivity | now rewrite orb_true_r].
Qed.

Lemma calculate_amm_price_levels_empty_pool_witness :
  calculate_amm_price_levels 0 3000000 (3 # 1000) 10 (1 # 10) = Ok ([], []).
Proof.
  apply calculate_amm_price_levels_empty_pool. left. discriminate.
Defined.

(** C9, as stated, fails: a pass can leave both lists as they are and go
    on.  With [size_step = 0.0] the trade size is zero: the pass does not
    [break] and appends to neither side, so it is neither of the two cases
    the claim allows. *)
Lemma level_body_zero_step_appends_nothing :
  level_body 1000 3000000 (3 # 1000) 0 (1000 * 3000000) 1 [] []
  = Ok (Some ([], []))
  /\ ~ (forall (reserve0 reserve1 fee_rate size_step k : Q) (i : Z)
               (bid_levels ask_levels : list level),
          level_body reserve0 reserve1 fee_rate size_step k i
            bid_levels ask_levels
          = Ok None
          \/ exists bid ask : level,
               level_body reserve0 reserve1 fee_rate size_step k i
                 bid_levels ask_levels
               = Ok (Some (bid_levels ++ [bid], ask_levels ++ [ask]))).
Proof.
  split; [reflexivity|].
  intros H.
  destruct (H 1000 3000000 (3 # 1000) 0 (1000 * 3000000) 1%Z [] [])
    as [E|(bid & ask & E)]; vm_compute in E; discriminate E.
Qed.

(** C9, amended.  Whatever the inputs, whenever the generator returns, its
    two lists have the same length (indeed the same sizes, rung by rung).
    A pass of the loop does one of four things: it stops the loop, when
    [reserve0 - trade_size <= 0], before appending to either side; it
    appends exactly one level to each side, when [trade_size > 0]; it
    appends to neither side and goes on, when [trade_size <= 0]; or it
    raises [ZeroDivisionError], and then nothing is returned. *)
Theorem calculate_amm_price_levels_equal_length
    (reserve0 reserve1 fee_rate : Q) (num_levels : Z) (size_step : Q) :
  (forall bid_levels ask_levels : list level,
     calculate_amm_price_levels reserve0 reserve1 fee_rate num_levels
       size_step
     = Ok (bid_levels, ask_levels) ->
     length bid_levels = length ask_levels
     /\ List.map snd bid_levels = List.map snd ask_levels)
  /\ (forall (i : Z) (bid_levels ask_levels : list level),
        let trade_size := (reserve0 * size_step * inject_Z i)%Q in
        match level_body reserve0 reserve1 fee_rate size_step
                (reserve0 * reserve1)%Q i bid_levels ask_levels with
        | Ok None => (reserve0 - trade_size <= 0)%Q
        | Ok (Some (bid_levels', ask_levels')) =>
            (0 < reserve0 - trade_size)%Q
            /\ (((0 < trade_size)%Q
                 /\ exists bid_price ask_price : Q,
                      bid_levels' = bid_levels ++ [(bid_price, trade_size)]
                      /\ ask_levels'
                         = ask_levels ++ [(ask_price, trade_size)])
                \/ ((trade_size <= 0)%Q
                    /\ bid_levels' = bid_levels
                    /\ ask_levels' = ask_levels))
        | Raise e => (0 < reserve0 - trade_size)%Q /\ e = ZeroDivisionError
        end).
Proof.
  split.
  - intros bid_levels ask_levels H.
    unfold calculate_amm_price_levels in H.
    assert (Hs : List.map snd bid_levels = List.map snd ask_levels).
    { destruct (_ || _).
      - inversion H. reflexivity.
      - now apply for_levels_sizes in H. }
    split; [|assumption].
    transitivity (length (List.map snd bid_levels)).
    + symmetry. apply List.length_map.
    + rewrite Hs. apply List.length_map.
  - intros i bid_levels ask_levels. apply level_body_cases.
Qed.

Lemma calculate_amm_price_levels_equal_length_witness :
  exists bid_levels ask_levels : list level,
    calculate_amm_price_levels 1000 3000000 (3 # 1000) 5 (1 # 10)
    = Ok (bid_levels, ask_levels)
    /\ length bid_levels = 5%nat
    /\ length bid_levels = length ask_levels
    /\ List.map snd bid_levels = List.map snd ask_levels.
Proof.
  eexists. eexists.
  split; [vm_compute; reflexivity|].
  split; [reflexivity|].
  apply (proj1 (calculate_amm_price_levels_equal_length
                  1000 3000000 (3 # 1000) 5 (1 # 10))).
  vm_compute. reflexivity.
Defined.

End Book.

(** ** Spread of the synthetic book *)

Section Spread.

Local Open Scope Q_scope.

Lemma prices_nonempty (levels : list level) :
  levels <> [] -> prices levels <> [].
Proof. destruct levels; [congruence | discriminate]. Qed.

Lemma in_bid_prices (reserve0 reserve1 fee_rate p : Q) (ts : list Q) :
  In p (prices (List.map (bid_level reserve0 reserve1 fee_rate) ts)) ->
  exists t, In t ts /\ p = sell_expr reserve0 reserve1 fee_rate t.
Proof.
  unfold prices. rewrite List.map_map. cbn. intros H.
  apply in_map_iff in H. destruct H as (t & <- & Ht). eauto.
Qed.

Lemma in_ask_prices (reserve0 reserve1 fee_rate p : Q) (ts : list Q) :
  In p (prices (List.map (ask_level reserve0 reserve1 fee_rate) ts)) ->
  exists t, In t ts /\ p = ask_expr reserve0 reserve1 fee_rate t.
Proof.
  unfold prices. rewrite List.map_map. cbn. intros H.
  apply in_map_iff in H. destruct H as (t & <- & Ht). eauto.
Qed.

Lemma bid_price_in (reserve0 reserve1 fee_rate t : Q) (ts : list Q) :
  In t ts ->
  In (sell_expr reserve0 reserve1 fee_rate t)
     (prices (List.map (bid_level reserve0 reserve1 fee_rate) ts)).
Proof.
  intros H. unfold prices. rewrite List.map_map. cbn.
  apply in_map_iff. eauto.
Qed.

Lemma ask_price_in (reserve0 reserve1 fee_rate t : Q) (ts : list Q) :
  In t ts ->
  In (ask_expr reserve0 reserve1 fee_rate t)
     (prices (List.map (ask_level reserve0 reserve1 fee_rate) ts)).
Proof.
  intros H. unfold prices. rewrite List.map_map. cbn.
  apply in_map_iff. eauto.
Qed.

(** On a valid pool with a positive step the generator returns the rungs
    of the completed passes. *)
Lemma calculate_amm_price_levels_closed
    (reserve0 reserve1 fee_rate : Q) (num_levels : Z) (size_step : Q) :
  0 < reserve0 -> 0 < reserve1 -> 0 <= fee_rate -> fee_rate < 1 ->
  0 < size_step ->
  calculate_amm_price_levels reserve0 reserve1 fee_rate num_levels size_step
  = Ok (List.map (bid_level reserve0 reserve1 fee_rate)
          (executed_sizes reserve0 size_step (range 1 (num_levels + 1))),
        List.map (ask_level reserve0 reserve1 fee_rate)
          (executed_sizes reserve0 size_step (range 1 (num_levels + 1)))).
Proof.
  intros H0 H1 Hf0 Hf1 Hs. unfold calculate_amm_price_levels.
  assert (E0 : Qle_bool reserve0 0 = false) by now apply Qle_bool_false.
  assert (E1 : Qle_bool reserve1 0 = false) by now apply Qle_bool_false.
  rewrite E0, E1. cbn [orb].
  rewrite for_levels_closed by (assumption || apply range_lower).
  reflexivity.
Qed.

(** Exact arithmetic only (the binary64 code differs, see [Binary64]).
    On a valid pool ([reserve0 > 0], [reserve1 > 0], fee in [0, 1)),
    with [num_levels >= 1] and [size_step > 0], the generator returns, and
    whenever both returned lists are non-empty the highest bid price is
    strictly below the lowest ask price. *)
Theorem calculate_amm_price_levels_never_crosses
    (reserve0 reserve1 fee_rate : Q) (num_levels : Z) (size_step : Q) :
  0 < reserve0 -> 0 < reserve1 -> 0 <= fee_rate -> fee_rate < 1 ->
  (1 <= num_levels)%Z -> 0 < size_step ->
  exists bid_levels ask_levels : list level,
    calculate_amm_price_levels reserve0 reserve1 fee_rate num_levels size_step
    = Ok (bid_levels, ask_levels)
    /\ (bid_levels <> [] -> ask_levels <> [] ->
        exists best_bid best_ask : Q,
          py_max (prices bid_levels) = Some best_bid
          /\ py_min (prices ask_levels) = Some best_ask
          /\ best_bid < best_ask).
Proof.
  intros H0 H1 Hf0 Hf1 _ Hs.
  eexists. eexists.
  split; [now apply calculate_amm_price_levels_closed|].
  intros Hb Ha.
  destruct (py_max_nonempty _ (prices_nonempty _ Hb)) as [mb Hmb].
  destruct (py_min_nonempty _ (prices_nonempty _ Ha)) as [ma Hma].
  exists mb, ma. repeat split; try assumption.
  pose proof (executed_sizes_inside reserve0 size_step
                (range 1 (num_levels + 1)) H0 Hs (range_lower 1 _)) as Hin.
  rewrite List.Forall_forall in Hin.
  apply py_max_spec in Hmb. destruct Hmb as [Hmb _].
  apply py_min_spec in Hma. destruct Hma as [Hma _].
  apply in_bid_prices in Hmb. destruct Hmb as (tb & Htb & ->).
  apply in_ask_prices in Hma. destruct Hma as (ta & Hta & ->).
  destruct (Hin _ Htb) as [Hb0 _]. destruct (Hin _ Hta) as [Ha0 Ha1].
  apply Qlt_trans with (reserve1 / reserve0).
  - now apply sell_below_spot.
  - now apply ask_above_spot.
Qed.

Lemma calculate_amm_price_levels_never_crosses_witness :
  exists bid_levels ask_levels : list level,
    calculate_amm_price_levels 1000 3000000 (3 # 1000) 5 (1 # 10)
    = Ok (bid_levels, ask_levels)
    /\ (bid_levels <> [] -> ask_levels <> [] ->
        exists best_bid best_ask : Q,
          py_max (prices bid_levels) = Some best_bid
          /\ py_min (prices ask_levels) = Some best_ask
          /\ best_bid < best_ask).
Proof.
  apply calculate_amm_price_levels_never_crosses;
    reflexivity || discriminate.
Defined.

(** Exact arithmetic only (the binary64 code differs, see [Binary64]).
    On a pool with [reserve0 > 0] and [reserve1 > 0], for the same
    [num_levels] and [size_step], and fee rates [0 <= f1 < f2 < 1] at which
    the generator returns non-empty bid and ask lists, the spread
    [min(askPrice) - max(bidPrice)] is strictly larger at [f2] than at
    [f1]. *)
Theorem calculate_amm_price_levels_fee_widens_spread
    (reserve0 reserve1 f1 f2 : Q) (num_levels : Z) (size_step : Q)
    (bids1 asks1 bids2 asks2 : list level) :
  0 < reserve0 -> 0 < reserve1 -> 0 <= f1 -> f1 < f2 -> f2 < 1 ->
  calculate_amm_price_levels reserve0 reserve1 f1 num_levels size_step
  = Ok (bids1, asks1) ->
  calculate_amm_price_levels reserve0 reserve1 f2 num_levels size_step
  = Ok (bids2, asks2) ->
  bids1 <> [] -> asks1 <> [] -> bids2 <> [] -> asks2 <> [] ->
  exists spread1 spread2 : Q,
    spread bids1 asks1 = Some spread1
    /\ spread bids2 asks2 = Some spread2
    /\ spread1 < spread2.
Proof.
  intros H0 H1 Hf0 Hf12 Hf2 Hc1 Hc2 Hb1 Ha1 Hb2 Ha2.
  destruct (Qlt_le_dec 0 size_step) as [Hs|Hs].
  2: { exfalso. apply Hb1.
       unfold calculate_amm_price_levels in Hc1.
       assert (E0 : Qle_bool reserve0 0 = false) by now apply Qle_bool_false.
       assert (E1 : Qle_bool reserve1 0 = false) by now apply Qle_bool_false.
       rewrite E0, E1 in Hc1. cbn [orb] in Hc1.
       apply for_levels_nonpos_step in Hc1;
         [tauto | assumption | assumption | apply range_lower]. }
  rewrite calculate_amm_price_levels_closed in Hc1 by (assumption || lra).
  rewrite calculate_amm_price_levels_closed in Hc2 by (assumption || lra).
  inversion Hc1; subst bids1 asks1. inversion Hc2; subst bids2 asks2.
  clear Hc1 Hc2.
  set (ts := executed_sizes reserve0 size_step (range 1 (num_levels + 1)))
    in *.
  pose proof (executed_sizes_inside reserve0 size_step
                (range 1 (num_levels + 1)) H0 Hs (range_lower 1 _)) as Hin.
  fold ts in Hin. rewrite List.Forall_forall in Hin.
  destruct (py_max_nonempty _ (prices_nonempty _ Hb1)) as [mb1 Hmb1].
  destruct (py_min_nonempty _ (prices_nonempty _ Ha1)) as [ma1 Hma1].
  destruct (py_max_nonempty _ (prices_nonempty _ Hb2)) as [mb2 Hmb2].
  destruct (py_min_nonempty _ (prices_nonempty _ Ha2)) as [ma2 Hma2].
  exists (ma1 - mb1), (ma2 - mb2). unfold spread.
  rewrite Hmb1, Hma1, Hmb2, Hma2. repeat split.
  apply py_max_spec in Hmb1. destruct Hmb1 as [_ Ub1].
  apply py_min_spec in Hma1. destruct Hma1 as [_ La1].
  apply py_max_spec in Hmb2. destruct Hmb2 as [Hmb2 _].
  apply py_min_spec in Hma2. destruct Hma2 as [Hma2 _].
  rewrite List.Forall_forall in Ub1, La1.
  apply in_bid_prices in Hmb2. destruct Hmb2 as (tb & Htb & ->).
  apply in_ask_prices in Hma2. destruct Hma2 as (ta & Hta & ->).
  pose proof (Ub1 _ (bid_price_in reserve0 reserve1 f1 tb ts Htb)) as Ub.
  pose proof (La1 _ (ask_price_in reserve0 reserve1 f1 ta ts Hta)) as La.
  destruct (Hin _ Htb) as [Hb0 _]. destruct (Hin _ Hta) as [Ha0 Ha1'].
  assert (Db : sell_expr reserve0 reserve1 f2 tb
               < sell_expr reserve0 reserve1 f1 tb)
    by (apply sell_expr_fee_decreasing; assumption).
  assert (Da : ask_expr reserve0 reserve1 f1 ta
               < ask_expr reserve0 reserve1 f2 ta)
    by (apply ask_expr_fee_increasing; assumption).
  lra.
Qed.

Lemma calculate_amm_price_levels_fee_widens_spread_witness :
  exists bids1 asks1 bids2 asks2 : list level,
    calculate_amm_price_levels 1000 3000000 (5 # 10000) 10 (1 # 10)
    = Ok (bids1, asks1)
    /\ calculate_amm_price_levels 1000 3000000 (1 # 100) 10 (1 # 10)
       = Ok (bids2, asks2)
    /\ exists spread1 spread2 : Q,
         spread bids1 asks1 = Some spread1
         /\ spread bids2 asks2 = Some spread2
         /\ spread1 < spread2.
Proof.
  eexists. eexists. eexists. eexists.
  split; [vm_compute; reflexivity|].
  split; [vm_compute; reflexivity|].
  apply (calculate_amm_price_levels_fee_widens_spread
           1000 3000000 (5 # 10000) (1 # 100) 10 (1 # 10));
    solve [ reflexivity | discriminate | vm_compute; reflexivity ].
Defined.

(** The pool of the test suite: five rungs a side, best bid below best
    ask. *)
Example test_pool_levels :
  exists bid_levels ask_levels best_bid best_ask,
    calculate_amm_price_levels 1000 3000000 (3 # 1000) 5 (1 # 10)
    = Ok (bid_levels, ask_levels)
    /\ length bid_levels = 5%nat /\ length ask_levels = 5%nat
    /\ py_max (prices bid_levels) = Some best_bid
    /\ py_min (prices ask_levels) = Some best_ask
    /\ best_bid < 3000 /\ 3000 < best_ask.
Proof.
  do 4 eexists.
  split; [vm_compute; reflexivity|].
  repeat split; vm_compute; reflexivity.
Qed.

End Spread.

(** ** The A2A envelope *)

Section EnvelopeRoundTrip.

Import Envelope.

Variable Any : Type.
Variable str_of : Any -> string.

(** C10. Whatever the message type, sender and payload (and whether or not
    a message id and a timestamp are supplied), validating the envelope
    [build_envelope] returns gives [(True, [])]. *)
Theorem validate_build_envelope
    (w : world) (message_type sender_id payload : pyobj Any)
    (message_id timestamp : option (pyobj Any)) :
  validate_envelope Any str_of
    (build_envelope Any w message_type sender_id payload message_id timestamp)
  = (true, []).
Proof.
  unfold validate_envelope, build_envelope. reflexivity.
Qed.

(** The validator does reject: an envelope with one field only lacks the
    six others, and a foreign protocol name is reported. *)
Example validate_envelope_rejects_missing_fields :
  validate_envelope Any str_of {["protocol" := PyStr PROTOCOL]}
  = (false,
     ["Missing required field: protocol_version";
      "Missing required field: message_type";
      "Missing required field: message_id";
      "Missing required field: sender_id";
      "Missing required field: timestamp";
      "Missing required field: payload"]).
Proof. reflexivity. Qed.

Example validate_envelope_rejects_wrong_protocol
    (w : world) (payload : pyobj Any) :
  validate_envelope Any str_of
    (<["protocol" := PyStr "wrong-protocol"]>
       (build_envelope Any w (PyStr "publish") (PyStr "node_test") payload
          None None))
  = (false, ["Invalid protocol: expected gep-a2a, got wrong-protocol"]).
Proof. reflexivity. Qed.

End EnvelopeRoundTrip.

(** ** Further properties of the pricing functions *)

Section PricingMore.

Local Open Scope Q_scope.

Lemma amm_spot_price_nonzero (reserve0 reserve1 : Q) :
  ~ reserve0 == 0 ->
  amm_spot_price reserve0 reserve1 = Ok (reserve1 / reserve0).
Proof.
  intros H. unfold amm_spot_price.
  destruct (Qeq_bool reserve0 0) eqn:E; [|reflexivity].
  apply Qeq_bool_iff in E. contradiction.
Qed.

(** Exact arithmetic only (the binary64 code differs, see [Binary64]).
    Flipping the reserves inverts the spot price: for non-zero
    reserves both calls return and the two prices multiply to one. *)
Theorem amm_spot_price_flip_inverse (reserve0 reserve1 : Q) :
  ~ reserve0 == 0 -> ~ reserve1 == 0 ->
  exists p q : Q,
    amm_spot_price reserve0 reserve1 = Ok p
    /\ amm_spot_price reserve1 reserve0 = Ok q
    /\ p * q == 1.
Proof.
  intros H0 H1.
  exists (reserve1 / reserve0), (reserve0 / reserve1).
  split; [now apply amm_spot_price_nonzero|].
  split; [now apply amm_spot_price_nonzero|].
  field. auto.
Qed.

Lemma amm_spot_price_flip_inverse_witness :
  exists p q : Q,
    amm_spot_price 100 300000 = Ok p
    /\ amm_spot_price 300000 100 = Ok q
    /\ p * q == 1.
Proof. apply amm_spot_price_flip_inverse; discriminate. Defined.

(** Exact arithmetic only (the binary64 code differs, see [Binary64]).
    On a valid pool a positive buy costs the spot price grossed up by
    the fee plus [amount_in / reserve0]: the slippage of a buy is linear
    in the amount paid.  A positive sell receives
    [reserve1 (1 - fee) / (reserve0 + amount_in (1 - fee))]. *)
Theorem amm_execution_price_closed_form
    (reserve0 reserve1 fee_rate amount_in : Q) :
  0 < reserve0 -> 0 < reserve1 -> 0 <= fee_rate -> fee_rate < 1 ->
  0 < amount_in ->
  exists buy sell : Q,
    amm_execution_price reserve0 reserve1 amount_in fee_rate true
    = Ok (Fin buy)
    /\ amm_execution_price reserve0 reserve1 amount_in fee_rate false
       = Ok (Fin sell)
    /\ buy == reserve1 / reserve0 / (1 - fee_rate) + amount_in / reserve0
    /\ sell == reserve1 * (1 - fee_rate)
               / (reserve0 + amount_in * (1 - fee_rate)).
Proof.
  intros H0 H1 Hf0 Hf1 Ha.
  exists (buy_expr reserve0 reserve1 fee_rate amount_in),
         (sell_expr reserve0 reserve1 fee_rate amount_in).
  split; [now apply amm_execution_price_buy|].
  split; [now apply amm_execution_price_sell|].
  split.
  - rewrite buy_expr_closed by assumption. field. split; lra.
  - now apply sell_expr_closed.
Qed.

Lemma amm_execution_price_closed_form_witness :
  exists buy sell : Q,
    amm_execution_price 1000 3000000 100 (3 # 1000) true = Ok (Fin buy)
    /\ amm_execution_price 1000 3000000 100 (3 # 1000) false = Ok (Fin sell)
    /\ buy == 3000000 / 1000 / (1 - (3 # 1000)) + 100 / 1000
    /\ sell == 3000000 * (1 - (3 # 1000))
               / (1000 + 100 * (1 - (3 # 1000))).
Proof.
  apply amm_execution_price_closed_form; reflexivity || discriminate.
Defined.

(** Exact arithmetic only (the binary64 code differs, see [Binary64]).
    The quoted trade keeps the product of the reserves.  With
    [amount_out] the amount the quote hands over ([amount_in / price] of
    token0 for a buy, [price * amount_in] of token1 for a sell), the
    reserves after the trade, the fee share of the input left out,
    multiply to [reserve0 * reserve1]. *)
Theorem amm_execution_price_constant_product
    (reserve0 reserve1 fee_rate amount_in : Q) :
  0 < reserve0 -> 0 < reserve1 -> 0 <= fee_rate -> fee_rate < 1 ->
  0 < amount_in ->
  exists buy sell : Q,
    amm_execution_price reserve0 reserve1 amount_in fee_rate true
    = Ok (Fin buy)
    /\ amm_execution_price reserve0 reserve1 amount_in fee_rate false
       = Ok (Fin sell)
    /\ (reserve0 - amount_in / buy)
       * (reserve1 + amount_in * (1 - fee_rate))
       == reserve0 * reserve1
    /\ (reserve0 + amount_in * (1 - fee_rate))
       * (reserve1 - sell * amount_in)
       == reserve0 * reserve1.
Proof.
  intros H0 H1 Hf0 Hf1 Ha.
  exists (buy_expr reserve0 reserve1 fee_rate amount_in),
         (sell_expr reserve0 reserve1 fee_rate amount_in).
  split; [now apply amm_execution_price_buy|].
  split; [now apply amm_execution_price_sell|].
  assert (Hx : 0 < amount_in * (1 - fee_rate)) by qpos.
  assert (Hy : 0 < reserve0 * (amount_in * (1 - fee_rate))) by qpos.
  split.
  - rewrite buy_expr_closed by assumption. field. repeat split; lra.
  - rewrite sell_expr_closed by assumption. field. lra.
Qed.

Lemma amm_execution_price_constant_product_witness :
  exists buy sell : Q,
    amm_execution_price 1000 3000000 100 (3 # 1000) true = Ok (Fin buy)
    /\ amm_execution_price 1000 3000000 100 (3 # 1000) false = Ok (Fin sell)
    /\ (1000 - 100 / buy) * (3000000 + 100 * (1 - (3 # 1000)))
       == 1000 * 3000000
    /\ (1000 + 100 * (1 - (3 # 1000))) * (3000000 - sell * 100)
       == 1000 * 3000000.
Proof.
  apply amm_execution_price_constant_product; reflexivity || discriminate.
Defined.

(** Exact arithmetic only (the binary64 code differs, see [Binary64]).
    No positive trade on a valid pool empties a reserve: a buy hands
    over strictly less than [reserve0] and a sell strictly less than
    [reserve1], and both hand over a positive amount. *)
Theorem amm_execution_price_never_drains
    (reserve0 reserve1 fee_rate amount_in : Q) :
  0 < reserve0 -> 0 < reserve1 -> 0 <= fee_rate -> fee_rate < 1 ->
  0 < amount_in ->
  exists buy sell : Q,
    amm_execution_price reserve0 reserve1 amount_in fee_rate true
    = Ok (Fin buy)
    /\ amm_execution_price reserve0 reserve1 amount_in fee_rate false
       = Ok (Fin sell)
    /\ 0 < amount_in / buy < reserve0
    /\ 0 < sell * amount_in < reserve1.
Proof.
  intros H0 H1 Hf0 Hf1 Ha.
  exists (buy_expr reserve0 reserve1 fee_rate amount_in),
         (sell_expr reserve0 reserve1 fee_rate amount_in).
  split; [now apply amm_execution_price_buy|].
  split; [now apply amm_execution_price_sell|].
  assert (Hx : 0 < amount_in * (1 - fee_rate)) by qpos.
  assert (Hy : 0 < reserve0 * (amount_in * (1 - fee_rate))) by qpos.
  assert (Hz : 0 < reserve1 * (amount_in * (1 - fee_rate))) by qpos.
  split.
  - assert (E : amount_in / buy_expr reserve0 reserve1 fee_rate amount_in
                == reserve0 * (amount_in * (1 - fee_rate))
                   / (reserve1 + amount_in * (1 - fee_rate))).
    { rewrite buy_expr_closed by assumption. field. repeat split; lra. }
    rewrite E. split.
    + apply Qlt_shift_div_l; lra.
    + apply Qlt_shift_div_r; [lra|].
      assert (0 < reserve0 * reserve1) by qpos. lra.
  - assert (E : sell_expr reserve0 reserve1 fee_rate amount_in * amount_in
                == reserve1 * (amount_in * (1 - fee_rate))
                   / (reserve0 + amount_in * (1 - fee_rate))).
    { rewrite sell_expr_closed by assumption. field. lra. }
    rewrite E. split.
    + apply Qlt_shift_div_l; lra.
    + apply Qlt_shift_div_r; [lra|].
      assert (0 < reserve0 * reserve1) by qpos. lra.
Qed.

Lemma amm_execution_price_never_drains_witness :
  exists buy sell : Q,
    amm_execution_price 1000 3000000 100000 (3 # 1000) true = Ok (Fin buy)
    /\ amm_execution_price 1000 3000000 100000 (3 # 1000) false
       = Ok (Fin sell)
    /\ 0 < 100000 / buy < 1000
    /\ 0 < sell * 100000 < 3000000.
Proof.
  apply amm_execution_price_never_drains; reflexivity || discriminate.
Defined.

End PricingMore.

(** ** Edge behaviour of the execution price *)

Section PricingEdges.

Local Open Scope Q_scope.

(** Exact arithmetic only (the binary64 code differs, see [Binary64]).
    A zero-size quote on non-empty reserves is [float("inf")] for a
    buy and [0.0] for a sell, whatever the fee rate. *)
Theorem amm_execution_price_zero_amount (reserve0 reserve1 fee_rate : Q) :
  ~ reserve0 == 0 -> ~ reserve1 == 0 ->
  amm_execution_price reserve0 reserve1 0 fee_rate true = Ok Inf
  /\ amm_execution_price reserve0 reserve1 0 fee_rate false = Ok (Fin 0).
Proof.
  intros H0 H1. unfold amm_execution_price. split.
  - rewrite fdiv_ok by (intros E; apply H1; lra). cbn.
    destruct (Qlt_le_dec _ _) as [Hpos|_]; [|reflexivity].
    exfalso.
    assert (E : reserve0
                - reserve0 * reserve1 / (reserve1 + 0 * (1 - fee_rate))
                == 0) by (field; lra).
    lra.
  - rewrite fdiv_ok by (intros E; apply H0; lra). cbn.
    destruct (Qlt_le_dec 0 0) as [Hpos|_]; [lra | reflexivity].
Qed.

Lemma amm_execution_price_zero_amount_witness :
  amm_execution_price 1000 3000000 0 (3 # 1000) true = Ok Inf
  /\ amm_execution_price 1000 3000000 0 (3 # 1000) false = Ok (Fin 0).
Proof. apply amm_execution_price_zero_amount; discriminate. Defined.

(** X6. [amm_execution_price] raises exactly when the reserve the trade
    pays into, after the fee-adjusted input is added, is zero; the
    exception is then [ZeroDivisionError].  Otherwise it returns a
    price. *)
Theorem amm_execution_price_raises_iff
    (reserve0 reserve1 amount_in fee_rate : Q) (is_buy : bool) :
  (new_reserve reserve0 reserve1 amount_in fee_rate is_buy == 0 ->
   amm_execution_price reserve0 reserve1 amount_in fee_rate is_buy
   = Raise ZeroDivisionError)
  /\ (~ new_reserve reserve0 reserve1 amount_in fee_rate is_buy == 0 ->
      exists p : pyfloat,
        amm_execution_price reserve0 reserve1 amount_in fee_rate is_buy
        = Ok p).
Proof.
  split; [apply amm_execution_price_zero_divisor|].
  intros Hd. unfold amm_execution_price, new_reserve in *.
  destruct is_buy; rewrite fdiv_ok by assumption; cbn;
    destruct (Qlt_le_dec _ _); try rewrite fdiv_pos by assumption; cbn;
    eauto.
Qed.

Lemma amm_execution_price_raises_iff_witness :
  amm_execution_price 1000 3000000 (-6000000) (1 # 2) true
  = Raise ZeroDivisionError
  /\ exists p : pyfloat,
       amm_execution_price 1000 3000000 100 (1 # 2) false = Ok p.
Proof.
  split.
  - apply (proj1 (amm_execution_price_raises_iff
                    1000 3000000 (-6000000) (1 # 2) true)).
    reflexivity.
  - apply (proj2 (amm_execution_price_raises_iff
                    1000 3000000 100 (1 # 2) false)).
    discriminate.
Defined.

End PricingEdges.

(** ** Shape of the ladder *)

Section Ladder.

Local Open Scope Q_scope.

Lemma range_length (n : Z) : length (range 1 (n + 1)) = Z.to_nat n.
Proof.
  unfold range. rewrite List.length_map, List.length_seq. f_equal. lia.
Qed.

Lemma range_cons (lo hi : Z) :
  (lo < hi)%Z -> range lo hi = lo :: range (lo + 1) hi.
Proof.
  intros H. unfold range.
  replace (Z.to_nat (hi - lo)) with (S (Z.to_nat (hi - (lo + 1)))) by lia.
  cbn [List.seq List.map]. f_equal; [lia|].
  rewrite <- List.seq_shift, List.map_map.
  apply List.map_ext. intros n. lia.
Qed.

Lemma range_nil (lo hi : Z) : (hi <= lo)%Z -> range lo hi = [].
Proof.
  intros H. unfold range.
  replace (Z.to_nat (hi - lo)) with 0%nat by lia. reflexivity.
Qed.

Lemma map_seq_from {A : Type} (f : nat -> A) (b : nat) : forall a : nat,
  List.map f (List.seq a b)
  = List.map (fun n => f (a + n)%nat) (List.seq 0 b).
Proof.
  induction b as [|b IH]; intros a; [reflexivity|].
  cbn [List.seq List.map]. f_equal; [f_equal; lia|].
  rewrite IH, <- List.seq_shift, List.map_map.
  apply List.map_ext. intros n. f_equal. lia.
Qed.

Lemma range_app (lo mid hi : Z) :
  (lo <= mid)%Z -> (mid <= hi)%Z ->
  range lo hi = range lo mid ++ range mid hi.
Proof.
  intros H1 H2. unfold range.
  replace (Z.to_nat (hi - lo))
    with (Z.to_nat (mid - lo) + Z.to_nat (hi - mid))%nat by lia.
  rewrite List.seq_app, List.map_app. f_equal.
  rewrite map_seq_from. apply List.map_ext. intros n. lia.
Qed.

End Ladder.

Section CompletedPasses.

Local Open Scope Q_scope.

Variables reserve0 size_step : Q.

Lemma executed_sizes_app (idx1 idx2 : list Z) :
  exists rest : list Q,
    executed_sizes reserve0 size_step (idx1 ++ idx2)
    = executed_sizes reserve0 size_step idx1 ++ rest.
Proof.
  induction idx1 as [|i idx1 IH]; cbn.
  - eauto.
  - destruct (Qle_bool _ 0); [exists []; reflexivity|].
    destruct IH as [rest ->]. exists rest. reflexivity.
Qed.

Lemma executed_sizes_in (idx : list Z) (t : Q) :
  In t (executed_sizes reserve0 size_step idx) ->
  exists i, In i idx /\ t = reserve0 * size_step * inject_Z i.
Proof.
  induction idx as [|i idx IH]; cbn; [contradiction|].
  destruct (Qle_bool _ 0); cbn; [contradiction|].
  intros [<-|H]; [eauto|].
  destruct (IH H) as (j & Hj & ->). eauto.
Qed.

(** Without a [break] every index is a completed pass. *)
Lemma executed_sizes_all (idx : list Z) :
  Forall (fun i => reserve0 * size_step * inject_Z i < reserve0) idx ->
  executed_sizes reserve0 size_step idx
  = List.map (fun i => reserve0 * size_step * inject_Z i) idx.
Proof.
  induction 1 as [|i idx Hi _ IH]; cbn; [reflexivity|].
  assert (E : Qle_bool (reserve0 - reserve0 * size_step * inject_Z i) 0
              = false) by (apply Qle_bool_false; lra).
  rewrite E, IH. reflexivity.
Qed.

Hypothesis Hr0 : 0 < reserve0.
Hypothesis Hs : 0 < size_step.

Lemma trade_size_increasing (i j : Z) :
  (i < j)%Z ->
  reserve0 * size_step * inject_Z i < reserve0 * size_step * inject_Z j.
Proof.
  intros H. rewrite Zlt_Qlt in H.
  assert (P : 0 < reserve0 * size_step * (inject_Z j - inject_Z i)) by qpos.
  lra.
Qed.

(** The completed passes trade strictly increasing sizes. *)
Lemma executed_sizes_sorted (idx : list Z) :
  StronglySorted Z.lt idx ->
  StronglySorted Qlt (executed_sizes reserve0 size_step idx).
Proof.
  induction 1 as [|i idx _ IH Hi]; cbn; [constructor|].
  destruct (Qle_bool _ 0); constructor; [assumption|].
  apply List.Forall_forall. intros t Ht.
  apply executed_sizes_in in Ht. destruct Ht as (j & Hj & ->).
  rewrite List.Forall_forall in Hi.
  apply trade_size_increasing. auto.
Qed.

End CompletedPasses.

Lemma range_sorted (lo hi : Z) : StronglySorted Z.lt (range lo hi).
Proof.
  unfold range. generalize (Z.to_nat (hi - lo)) as k.
  intros k. rewrite map_seq_from.
  assert (G : forall a, StronglySorted Z.lt
            (List.map (fun n => (lo + Z.of_nat n)%Z) (List.seq a k))).
  { induction k as [|k IH]; intros a; cbn; constructor; [apply IH|].
    apply List.Forall_forall. intros z Hz.
    apply in_map_iff in Hz. destruct Hz as (n & <- & Hn).
    apply in_seq in Hn. lia. }
  rewrite <- (map_seq_from (fun n => (lo + Z.of_nat n)%Z) k 0). apply G.
Qed.

(** ** The ladder and the pricing functions *)

Section LadderPrices.

Local Open Scope Q_scope.

(** X7. Each bid rung quotes what [amm_execution_price] returns for
    selling the rung's size: on a valid pool with a positive step, the
    price of every bid level [(price, size)] is the sell execution price
    of [size]. *)
Theorem bid_levels_are_sell_prices
    (reserve0 reserve1 fee_rate : Q) (num_levels : Z) (size_step : Q) :
  0 < reserve0 -> 0 < reserve1 -> 0 <= fee_rate -> fee_rate < 1 ->
  0 < size_step ->
  exists bid_levels ask_levels : list level,
    calculate_amm_price_levels reserve0 reserve1 fee_rate num_levels size_step
    = Ok (bid_levels, ask_levels)
    /\ Forall (fun l : level =>
                 amm_execution_price reserve0 reserve1 (snd l) fee_rate false
                 = Ok (Fin (fst l)))
              bid_levels.
Proof.
  intros H0 H1 Hf0 Hf1 Hs. do 2 eexists.
  split; [now apply calculate_amm_price_levels_closed|].
  pose proof (executed_sizes_inside reserve0 size_step
                (range 1 (num_levels + 1)) H0 Hs (range_lower 1 _)) as Hin.
  apply List.Forall_map. eapply List.Forall_impl; [|exact Hin].
  intros t [Ht _]. cbn. now apply amm_execution_price_sell.
Qed.

Lemma bid_levels_are_sell_prices_witness :
  exists bid_levels ask_levels : list level,
    calculate_amm_price_levels 1000 3000000 (3 # 1000) 5 (1 # 10)
    = Ok (bid_levels, ask_levels)
    /\ Forall (fun l : level =>
                 amm_execution_price 1000 3000000 (snd l) (3 # 1000) false
                 = Ok (Fin (fst l)))
              bid_levels.
Proof.
  apply bid_levels_are_sell_prices; reflexivity || discriminate.
Defined.

(** The gross payment of an ask rung buys exactly the rung. *)
Lemma ask_payment_buys_rung (reserve0 reserve1 fee_rate t : Q) :
  0 < reserve0 -> 0 < reserve1 -> 0 <= fee_rate -> fee_rate < 1 ->
  0 < t -> t < reserve0 ->
  exists q : Q,
    amm_execution_price reserve0 reserve1
      (ask_expr reserve0 reserve1 fee_rate t * t) fee_rate true
    = Ok (Fin q)
    /\ q == ask_expr reserve0 reserve1 fee_rate t.
Proof.
  intros H0 H1 Hf0 Hf1 Ht Htr.
  pose proof (ask_above_spot reserve0 reserve1 H0 H1 fee_rate t
                Hf0 Hf1 Ht Htr) as Hask.
  assert (Hspot : 0 < reserve1 / reserve0)
    by (apply Qlt_shift_div_l; lra).
  assert (Ha : 0 < ask_expr reserve0 reserve1 fee_rate t * t) by qpos.
  eexists. split; [now apply amm_execution_price_buy|].
  rewrite buy_expr_closed by assumption.
  rewrite ask_expr_closed by assumption.
  field. repeat split; lra.
Qed.

(** Exact arithmetic only (the binary64 code differs, see [Binary64]).
    The two ways the source charges the fee agree.  Paying the gross
    amount of an ask rung, [price * size] of token1, into
    [amm_execution_price] as a buy executes at that rung's price (so it
    buys exactly [size] of token0). *)
Theorem ask_levels_are_buy_prices
    (reserve0 reserve1 fee_rate : Q) (num_levels : Z) (size_step : Q) :
  0 < reserve0 -> 0 < reserve1 -> 0 <= fee_rate -> fee_rate < 1 ->
  0 < size_step ->
  exists bid_levels ask_levels : list level,
    calculate_amm_price_levels reserve0 reserve1 fee_rate num_levels size_step
    = Ok (bid_levels, ask_levels)
    /\ Forall (fun l : level =>
                 exists q : Q,
                   amm_execution_price reserve0 reserve1
                     (fst l * snd l) fee_rate true
                   = Ok (Fin q)
                   /\ q == fst l)
              ask_levels.
Proof.
  intros H0 H1 Hf0 Hf1 Hs. do 2 eexists.
  split; [now apply calculate_amm_price_levels_closed|].
  pose proof (executed_sizes_inside reserve0 size_step
                (range 1 (num_levels + 1)) H0 Hs (range_lower 1 _)) as Hin.
  apply List.Forall_map. eapply List.Forall_impl; [|exact Hin].
  intros t [Ht Htr]. cbn. now apply ask_payment_buys_rung.
Qed.

Lemma ask_levels_are_buy_prices_witness :
  exists bid_levels ask_levels : list level,
    calculate_amm_price_levels 1000 3000000 (3 # 1000) 5 (1 # 10)
    = Ok (bid_levels, ask_levels)
    /\ Forall (fun l : level =>
                 exists q : Q,
                   amm_execution_price 1000 3000000
                     (fst l * snd l) (3 # 1000) true
                   = Ok (Fin q)
                   /\ q == fst l)
              ask_levels.
Proof.
  apply ask_levels_are_buy_prices; reflexivity || discriminate.
Defined.

End LadderPrices.

(** ** Order and length of the ladder *)

Section LadderOrder.

Local Open Scope Q_scope.

Lemma StronglySorted_map_on {A B : Type}
    (R1 : A -> A -> Prop) (R2 : B -> B -> Prop) (P : A -> Prop)
    (f : A -> B) (l : list A) :
  (forall x y, P x -> P y -> R1 x y -> R2 (f x) (f y)) ->
  Forall P l -> StronglySorted R1 l -> StronglySorted R2 (List.map f l).
Proof.
  intros Hf HP HS. induction HS as [|x l _ IH Hx]; cbn; [constructor|].
  inversion HP as [|? ? Px Pl]; subst.
  constructor; [now apply IH|].
  apply List.Forall_map. rewrite List.Forall_forall in *.
  intros y Hy. apply Hf; auto.
Qed.

Lemma ask_expr_increasing (reserve0 reserve1 fee_rate t1 t2 : Q) :
  0 < reserve1 -> fee_rate < 1 -> 0 < t1 -> t1 < t2 -> t2 < reserve0 ->
  ask_expr reserve0 reserve1 fee_rate t1
  < ask_expr reserve0 reserve1 fee_rate t2.
Proof.
  intros H1 Hf Ht1 Ht12 Ht2. rewrite !ask_expr_closed by lra.
  assert (P1 : 0 < (reserve0 - t1) * (1 - fee_rate)) by qpos.
  assert (P2 : 0 < (reserve0 - t2) * (1 - fee_rate)) by qpos.
  assert (P3 : 0 < reserve1 * ((t2 - t1) * (1 - fee_rate))) by qpos.
  apply Qdiv_lt_cross; lra.
Qed.

(** Sizes ascend, bid prices descend and ask prices ascend along the
    returned lists. *)
Lemma ladder_sorted
    (reserve0 reserve1 fee_rate : Q) (num_levels : Z) (size_step : Q) :
  0 < reserve0 -> 0 < reserve1 -> 0 <= fee_rate -> fee_rate < 1 ->
  0 < size_step ->
  exists bid_levels ask_levels : list level,
    calculate_amm_price_levels reserve0 reserve1 fee_rate num_levels size_step
    = Ok (bid_levels, ask_levels)
    /\ StronglySorted Qlt (List.map snd bid_levels)
    /\ StronglySorted Qlt (List.map snd ask_levels)
    /\ StronglySorted (fun p q => q < p) (prices bid_levels)
    /\ StronglySorted Qlt (prices ask_levels).
Proof.
  intros H0 H1 Hf0 Hf1 Hs. do 2 eexists.
  split; [now apply calculate_amm_price_levels_closed|].
  pose proof (executed_sizes_inside reserve0 size_step
                (range 1 (num_levels + 1)) H0 Hs (range_lower 1 _)) as Hin.
  pose proof (executed_sizes_sorted reserve0 size_step H0 Hs
                (range 1 (num_levels + 1)) (range_sorted 1 _)) as Hsort.
  unfold prices. rewrite !List.map_map. cbn.
  rewrite List.map_id.
  repeat split; try assumption.
  - eapply StronglySorted_map_on; [|exact Hin|exact Hsort].
    intros x y [Hx _] [Hy _] Hxy. now apply sell_expr_decreasing.
  - eapply StronglySorted_map_on; [|exact Hin|exact Hsort].
    intros x y [Hx _] [_ Hy] Hxy. now apply ask_expr_increasing.
Qed.

(** Exact arithmetic only (the binary64 code differs, see [Binary64]).
    The generator emits each side best price first.  On a valid pool
    with a positive step the sizes are strictly increasing, the bid prices
    strictly decreasing and the ask prices strictly increasing, in the
    order of the returned lists. *)
Theorem calculate_amm_price_levels_sorted
    (reserve0 reserve1 fee_rate : Q) (num_levels : Z) (size_step : Q) :
  0 < reserve0 -> 0 < reserve1 -> 0 <= fee_rate -> fee_rate < 1 ->
  0 < size_step ->
  exists bid_levels ask_levels : list level,
    calculate_amm_price_levels reserve0 reserve1 fee_rate num_levels size_step
    = Ok (bid_levels, ask_levels)
    /\ StronglySorted Qlt (List.map snd bid_levels)
    /\ StronglySorted Qlt (List.map snd ask_levels)
    /\ StronglySorted (fun p q => q < p) (prices bid_levels)
    /\ StronglySorted Qlt (prices ask_levels).
Proof. apply ladder_sorted. Qed.

Lemma calculate_amm_price_levels_sorted_witness :
  exists bid_levels ask_levels : list level,
    calculate_amm_price_levels 1000 3000000 (3 # 1000) 5 (1 # 10)
    = Ok (bid_levels, ask_levels)
    /\ StronglySorted Qlt (List.map snd bid_levels)
    /\ StronglySorted Qlt (List.map snd ask_levels)
    /\ StronglySorted (fun p q => q < p) (prices bid_levels)
    /\ StronglySorted Qlt (prices ask_levels).
Proof.
  apply calculate_amm_price_levels_sorted; reflexivity || discriminate.
Defined.

Lemma for_levels_length
    (reserve0 reserve1 fee_rate size_step k : Q) (idx : list Z) :
  forall b a b' a' : list level,
    for_levels reserve0 reserve1 fee_rate size_step k idx b a = Ok (b', a') ->
    (length b' <= length b + length idx)%nat
    /\ (length a' <= length a + length idx)%nat.
Proof.
  induction idx as [|i rest IH]; intros b a b' a'; cbn.
  - intros E. inversion E. lia.
  - pose proof (level_body_cases reserve0 reserve1 fee_rate size_step k i b a)
      as Hc. cbn in Hc.
    destruct (level_body _ _ _ _ _ _ _ _) as [[[b1 a1]|]|e]; cbn.
    + intros Hrest. apply IH in Hrest.
      destruct Hc as (_ & [(_ & bp & ap & -> & ->)|(_ & -> & ->)]).
      * rewrite !List.length_app in Hrest. cbn in Hrest. lia.
      * lia.
    + intros E. inversion E. lia.
    + discriminate.
Qed.

(** X10. Whatever the inputs, neither returned list has more than
    [num_levels] rungs (none at all when [num_levels <= 0]). *)
Theorem calculate_amm_price_levels_at_most_num_levels
    (reserve0 reserve1 fee_rate : Q) (num_levels : Z) (size_step : Q)
    (bid_levels ask_levels : list level) :
  calculate_amm_price_levels reserve0 reserve1 fee_rate num_levels size_step
  = Ok (bid_levels, ask_levels) ->
  (length bid_levels <= Z.to_nat num_levels)%nat
  /\ (length ask_levels <= Z.to_nat num_levels)%nat.
Proof.
  unfold calculate_amm_price_levels.
  destruct (_ || _).
  - intros E. inversion E. cbn. lia.
  - intros E. apply for_levels_length in E.
    rewrite range_length in E. cbn in E. lia.
Qed.

Lemma calculate_amm_price_levels_at_most_num_levels_witness :
  exists bid_levels ask_levels : list level,
    calculate_amm_price_levels 1000 3000000 (3 # 1000) 5 (3 # 10)
    = Ok (bid_levels, ask_levels)
    /\ length bid_levels = 3%nat
    /\ (length bid_levels <= Z.to_nat 5)%nat
    /\ (length ask_levels <= Z.to_nat 5)%nat.
Proof.
  do 2 eexists.
  split; [vm_compute; reflexivity|].
  split; [reflexivity|].
  apply (calculate_amm_price_levels_at_most_num_levels
           1000 3000000 (3 # 1000) 5 (3 # 10)).
  vm_compute. reflexivity.
Defined.

End LadderOrder.

(** ** How far the ladder reaches *)

Section LadderReach.

Local Open Scope Q_scope.

Lemma range_upper (lo hi : Z) : Forall (fun i => (i < hi)%Z) (range lo hi).
Proof.
  unfold range. apply List.Forall_forall. intros i Hi.
  apply in_map_iff in Hi. destruct Hi as (n & <- & Hn).
  apply in_seq in Hn. lia.
Qed.

Lemma calculate_amm_price_levels_positive_pool
    (reserve0 reserve1 fee_rate : Q) (num_levels : Z) (size_step : Q) :
  0 < reserve0 -> 0 < reserve1 ->
  calculate_amm_price_levels reserve0 reserve1 fee_rate num_levels size_step
  = for_levels reserve0 reserve1 fee_rate size_step (reserve0 * reserve1)
      (range 1 (num_levels + 1)) [] [].
Proof.
  intros H0 H1. unfold calculate_amm_price_levels.
  assert (E0 : Qle_bool reserve0 0 = false) by now apply Qle_bool_false.
  assert (E1 : Qle_bool reserve1 0 = false) by now apply Qle_bool_false.
  now rewrite E0, E1.
Qed.

(** Exact arithmetic only (the binary64 code differs, see [Binary64]).
    A ladder that stays inside the pool is complete: on a valid pool
    with a positive step and [size_step * num_levels < 1], each side has
    exactly [num_levels] rungs, of sizes [reserve0 * size_step * i] for
    [i = 1 .. num_levels]. *)
Theorem calculate_amm_price_levels_complete
    (reserve0 reserve1 fee_rate : Q) (num_levels : Z) (size_step : Q) :
  0 < reserve0 -> 0 < reserve1 -> 0 <= fee_rate -> fee_rate < 1 ->
  0 < size_step -> size_step * inject_Z num_levels < 1 ->
  exists bid_levels ask_levels : list level,
    calculate_amm_price_levels reserve0 reserve1 fee_rate num_levels size_step
    = Ok (bid_levels, ask_levels)
    /\ length bid_levels = Z.to_nat num_levels
    /\ length ask_levels = Z.to_nat num_levels
    /\ List.map snd bid_levels
       = List.map (fun i => reserve0 * size_step * inject_Z i)
           (range 1 (num_levels + 1))
    /\ List.map snd ask_levels
       = List.map (fun i => reserve0 * size_step * inject_Z i)
           (range 1 (num_levels + 1)).
Proof.
  intros H0 H1 Hf0 Hf1 Hs Hn. do 2 eexists.
  split; [now apply calculate_amm_price_levels_closed|].
  assert (E : executed_sizes reserve0 size_step (range 1 (num_levels + 1))
              = List.map (fun i => reserve0 * size_step * inject_Z i)
                  (range 1 (num_levels + 1))).
  { apply executed_sizes_all.
    eapply List.Forall_impl; [|apply (range_upper 1 (num_levels + 1))].
    intros i Hi. cbn in Hi.
    assert (Hle : inject_Z i <= inject_Z num_levels)
      by (rewrite <- Zle_Qle; lia).
    assert (P1 : 0 <= size_step * (inject_Z num_levels - inject_Z i))
      by qpos.
    assert (P2 : 0 < reserve0 * (1 - size_step * inject_Z i)) by qpos.
    lra. }
  rewrite E, !List.length_map, range_length, !List.map_map. cbn.
  auto.
Qed.

Lemma calculate_amm_price_levels_complete_witness :
  exists bid_levels ask_levels : list level,
    calculate_amm_price_levels 1000 3000000 (3 # 1000) 5 (1 # 10)
    = Ok (bid_levels, ask_levels)
    /\ length bid_levels = Z.to_nat 5
    /\ length ask_levels = Z.to_nat 5
    /\ List.map snd bid_levels
       = List.map (fun i => 1000 * (1 # 10) * inject_Z i) (range 1 (5 + 1))
    /\ List.map snd ask_levels
       = List.map (fun i => 1000 * (1 # 10) * inject_Z i) (range 1 (5 + 1)).
Proof.
  apply calculate_amm_price_levels_complete; reflexivity || discriminate.
Defined.

(** X12. A step of the whole base reserve or more gives an empty book:
    with positive reserves and [size_step >= 1] the generator returns
    [([], [])], whatever the fee rate and the number of levels. *)
Theorem calculate_amm_price_levels_step_too_large
    (reserve0 reserve1 fee_rate : Q) (num_levels : Z) (size_step : Q) :
  0 < reserve0 -> 0 < reserve1 -> 1 <= size_step ->
  calculate_amm_price_levels reserve0 reserve1 fee_rate num_levels size_step
  = Ok ([], []).
Proof.
  intros H0 H1 Hs.
  rewrite calculate_amm_price_levels_positive_pool by assumption.
  destruct (Z_lt_le_dec 1 (num_levels + 1)) as [Hn|Hn].
  - rewrite range_cons by assumption. cbn. unfold level_body.
    assert (P : 0 <= reserve0 * (size_step - 1)) by qpos.
    assert (E : Qle_bool (reserve0 - reserve0 * size_step * inject_Z 1) 0
                = true).
    { apply Qle_bool_iff.
      assert (E1 : reserve0 * size_step * inject_Z 1 == reserve0 * size_step)
        by (change (inject_Z 1) with 1; ring).
      lra. }
    rewrite E. reflexivity.
  - rewrite range_nil by assumption. reflexivity.
Qed.

Lemma calculate_amm_price_levels_step_too_large_witness :
  calculate_amm_price_levels 1000 3000000 (3 # 1000) 5 (3 # 2) = Ok ([], []).
Proof.
  apply calculate_amm_price_levels_step_too_large;
    reflexivity || discriminate.
Defined.

End LadderReach.

(** ** Stability, failure and position of the ladder *)

Section LadderStability.

Local Open Scope Q_scope.

(** X13. Asking for more levels never changes the rungs already there: on
    a valid pool with a positive step and [num_levels <= num_levels'], the
    lists returned for [num_levels] are prefixes of those returned for
    [num_levels']. *)
Theorem calculate_amm_price_levels_prefix_stable
    (reserve0 reserve1 fee_rate : Q) (num_levels num_levels' : Z)
    (size_step : Q) :
  0 < reserve0 -> 0 < reserve1 -> 0 <= fee_rate -> fee_rate < 1 ->
  0 < size_step -> (num_levels <= num_levels')%Z ->
  exists bids asks more_bids more_asks : list level,
    calculate_amm_price_levels reserve0 reserve1 fee_rate num_levels size_step
    = Ok (bids, asks)
    /\ calculate_amm_price_levels reserve0 reserve1 fee_rate num_levels'
         size_step
       = Ok (bids ++ more_bids, asks ++ more_asks).
Proof.
  intros H0 H1 Hf0 Hf1 Hs Hn.
  rewrite !calculate_amm_price_levels_closed by assumption.
  assert (Hex : exists rest,
             executed_sizes reserve0 size_step (range 1 (num_levels' + 1))
             = executed_sizes reserve0 size_step (range 1 (num_levels + 1))
               ++ rest).
  { destruct (Z_lt_le_dec num_levels 0) as [Hneg|Hpos].
    - rewrite (range_nil 1 (num_levels + 1)) by lia. cbn. eauto.
    - rewrite (range_app 1 (num_levels + 1) (num_levels' + 1)) by lia.
      apply executed_sizes_app. }
  destruct Hex as [rest ->].
  do 2 eexists.
  exists (List.map (bid_level reserve0 reserve1 fee_rate) rest),
         (List.map (ask_level reserve0 reserve1 fee_rate) rest).
  split; [reflexivity|]. now rewrite !List.map_app.
Qed.

Lemma calculate_amm_price_levels_prefix_stable_witness :
  exists bids asks more_bids more_asks : list level,
    calculate_amm_price_levels 1000 3000000 (3 # 1000) 3 (1 # 10)
    = Ok (bids, asks)
    /\ calculate_amm_price_levels 1000 3000000 (3 # 1000) 5 (1 # 10)
       = Ok (bids ++ more_bids, asks ++ more_asks).
Proof.
  apply calculate_amm_price_levels_prefix_stable;
    reflexivity || discriminate.
Defined.

(** X14. A fee rate of one makes the generator raise: with positive
    reserves, at least one level and a first rung inside the pool
    ([0 < size_step < 1]), dividing by [1 - fee_rate] raises
    [ZeroDivisionError]. *)
Theorem calculate_amm_price_levels_full_fee_raises
    (reserve0 reserve1 fee_rate : Q) (num_levels : Z) (size_step : Q) :
  0 < reserve0 -> 0 < reserve1 -> fee_rate == 1 ->
  (1 <= num_levels)%Z -> 0 < size_step -> size_step < 1 ->
  calculate_amm_price_levels reserve0 reserve1 fee_rate num_levels size_step
  = Raise ZeroDivisionError.
Proof.
  intros H0 H1 Hf Hn Hs0 Hs1.
  rewrite calculate_amm_price_levels_positive_pool by assumption.
  rewrite range_cons by lia. cbn. unfold level_body.
  assert (Et : reserve0 * size_step * inject_Z 1 == reserve0 * size_step)
    by (change (inject_Z 1) with 1; ring).
  assert (P : 0 < reserve0 * (1 - size_step)) by qpos.
  assert (E : Qle_bool (reserve0 - reserve0 * size_step * inject_Z 1) 0
              = false) by (apply Qle_bool_false; lra).
  rewrite E. rewrite (fdiv_pos _ (reserve0 - _)) by lra. cbn.
  rewrite (fdiv_zero _ (1 - fee_rate)) by lra. reflexivity.
Qed.

Lemma calculate_amm_price_levels_full_fee_raises_witness :
  calculate_amm_price_levels 1000 3000000 1 5 (1 # 10)
  = Raise ZeroDivisionError.
Proof.
  apply calculate_amm_price_levels_full_fee_raises;
    reflexivity || discriminate.
Defined.

(** Exact arithmetic only (the binary64 code differs, see [Binary64]).
    The spot price separates the two sides rung by rung: on a valid
    pool with a positive step every bid price is strictly below
    [amm_spot_price] and every ask price strictly above it, and every
    rung's size lies strictly between zero and [reserve0]. *)
Theorem calculate_amm_price_levels_straddle_spot
    (reserve0 reserve1 fee_rate : Q) (num_levels : Z) (size_step : Q) :
  0 < reserve0 -> 0 < reserve1 -> 0 <= fee_rate -> fee_rate < 1 ->
  0 < size_step ->
  exists (bid_levels ask_levels : list level) (spot : Q),
    calculate_amm_price_levels reserve0 reserve1 fee_rate num_levels size_step
    = Ok (bid_levels, ask_levels)
    /\ amm_spot_price reserve0 reserve1 = Ok spot
    /\ Forall (fun l : level => fst l < spot /\ 0 < snd l < reserve0)
              bid_levels
    /\ Forall (fun l : level => spot < fst l /\ 0 < snd l < reserve0)
              ask_levels.
Proof.
  intros H0 H1 Hf0 Hf1 Hs. do 2 eexists. exists (reserve1 / reserve0).
  split; [now apply calculate_amm_price_levels_closed|].
  split; [now apply amm_spot_price_pos|].
  pose proof (executed_sizes_inside reserve0 size_step
                (range 1 (num_levels + 1)) H0 Hs (range_lower 1 _)) as Hin.
  split; apply List.Forall_map; (eapply List.Forall_impl; [|exact Hin]);
    intros t [Ht Htr]; cbn; (split; [|split; assumption]).
  - now apply sell_below_spot.
  - now apply ask_above_spot.
Qed.

Lemma calculate_amm_price_levels_straddle_spot_witness :
  exists (bid_levels ask_levels : list level) (spot : Q),
    calculate_amm_price_levels 1000 3000000 (3 # 1000) 5 (1 # 10)
    = Ok (bid_levels, ask_levels)
    /\ amm_spot_price 1000 3000000 = Ok spot
    /\ Forall (fun l : level => fst l < spot /\ 0 < snd l < 1000) bid_levels
    /\ Forall (fun l : level => spot < fst l /\ 0 < snd l < 1000) ask_levels.
Proof.
  apply calculate_amm_price_levels_straddle_spot;
    reflexivity || discriminate.
Defined.

End LadderStability.

Section LadderFailure.

Local Open Scope Q_scope.

(** The only exception the loop raises is that of a float division. *)
Lemma for_levels_raises_zero_division
    (reserve0 reserve1 fee_rate size_step k : Q) (idx : list Z) :
  forall (b a : list level) (e : exn),
    for_levels reserve0 reserve1 fee_rate size_step k idx b a = Raise e ->
    e = ZeroDivisionError.
Proof.
  induction idx as [|i rest IH]; intros b a e; cbn; [discriminate|].
  pose proof (level_body_cases reserve0 reserve1 fee_rate size_step k i b a)
    as Hc. cbn in Hc.
  destruct (level_body _ _ _ _ _ _ _ _) as [[[b1 a1]|]|e']; cbn.
  - apply IH.
  - discriminate.
  - intros E. inversion E; subst. tauto.
Qed.

(** X16. A step that is not positive never yields a rung: with positive
    reserves and [size_step <= 0] the generator either returns
    [([], [])] or raises [ZeroDivisionError]. *)
Theorem calculate_amm_price_levels_nonpositive_step
    (reserve0 reserve1 fee_rate : Q) (num_levels : Z) (size_step : Q) :
  0 < reserve0 -> 0 < reserve1 -> size_step <= 0 ->
  calculate_amm_price_levels reserve0 reserve1 fee_rate num_levels size_step
  = Ok ([], [])
  \/ calculate_amm_price_levels reserve0 reserve1 fee_rate num_levels
       size_step
     = Raise ZeroDivisionError.
Proof.
  intros H0 H1 Hs.
  rewrite calculate_amm_price_levels_positive_pool by assumption.
  destruct (for_levels _ _ _ _ _ _ _ _) as [[b a]|e] eqn:E.
  - left. apply for_levels_nonpos_step in E;
      [| assumption | assumption | apply range_lower].
    destruct E as [-> ->]. reflexivity.
  - right. apply for_levels_raises_zero_division in E. now subst.
Qed.

Lemma calculate_amm_price_levels_nonpositive_step_witness :
  calculate_amm_price_levels 1000 3000000 0 5 (-1) = Raise ZeroDivisionError
  /\ calculate_amm_price_levels 1000 3000000 (3 # 1000) 5 0 = Ok ([], []).
Proof.
  split.
  - destruct (calculate_amm_price_levels_nonpositive_step
                1000 3000000 0 5 (-1)) as [E|E];
      [reflexivity | reflexivity | discriminate | discriminate E | exact E].
  - destruct (calculate_amm_price_levels_nonpositive_step
                1000 3000000 (3 # 1000) 5 0) as [E|E];
      [reflexivity | reflexivity | discriminate | exact E | discriminate E].
Defined.

End LadderFailure.

(** ** The snapshot builder *)

Section SnapshotShape.

Import OrderBookSnapshot.

Local Open Scope Z_scope.

Variable InstrumentId : Type.
Variable BookOrder : Type.

Local Abbreviation delta := (OrderBookDelta InstrumentId BookOrder).

Lemma insert_by_key_length (key : level -> Q) (x : level) (l : list level) :
  length (insert_by_key key x l) = S (length l).
Proof.
  induction l as [|y rest IH]; cbn; [reflexivity|].
  destruct (Qlt_le_dec _ _); cbn; [reflexivity | now rewrite IH].
Qed.

Lemma py_sorted_length (key : level -> Q) (l : list level) :
  length (py_sorted key l) = length l.
Proof.
  unfold py_sorted.
  assert (G : forall acc,
            length (fold_left (fun acc x => insert_by_key key x acc) l acc)
            = (length acc + length l)%nat).
  { induction l as [|x rest IH]; intros acc; cbn; [lia|].
    rewrite IH, insert_by_key_length. lia. }
  now rewrite G.
Qed.

Local Abbreviation add_run := (add_run InstrumentId BookOrder).

Lemma add_run_succ
    (instrument_id : InstrumentId) (ts_event ts_init first : Z) (n : nat) :
  add_run instrument_id ts_event ts_init first (S n)
  = Delta instrument_id ADD None 0 first ts_event ts_init
    :: add_run instrument_id ts_event ts_init (first + 1) n.
Proof.
  unfold add_run. cbn [List.seq List.map]. f_equal.
  - f_equal. lia.
  - rewrite <- List.seq_shift, List.map_map. apply List.map_ext.
    intros k. f_equal. lia.
Qed.

Lemma add_run_app
    (instrument_id : InstrumentId) (ts_event ts_init first : Z)
    (n m : nat) :
  add_run instrument_id ts_event ts_init first (n + m)
  = add_run instrument_id ts_event ts_init first n
    ++ add_run instrument_id ts_event ts_init (first + Z.of_nat n) m.
Proof.
  revert first. induction n as [|n IH]; intros first.
  - cbn [Nat.add]. replace (first + Z.of_nat 0) with first by lia.
    reflexivity.
  - cbn [Nat.add]. rewrite !add_run_succ, IH. cbn. do 3 f_equal. lia.
Qed.

Lemma add_levels_spec
    (instrument_id : InstrumentId) (ts_event ts_init : Z)
    (levels : list level) :
  forall (ds : list delta) (sequence : Z),
    add_levels InstrumentId BookOrder instrument_id ts_event ts_init levels
      (ds, sequence)
    = (ds ++ add_run instrument_id ts_event ts_init sequence (length levels),
       sequence + Z.of_nat (length levels)).
Proof.
  unfold add_levels.
  induction levels as [|lv rest IH]; intros ds sequence.
  - cbn. rewrite app_nil_r. f_equal. lia.
  - cbn [fold_left length]. rewrite IH, add_run_succ.
    rewrite <- app_assoc. cbn. f_equal. lia.
Qed.

(** X17. The snapshot is one [CLEAR] delta followed by one [ADD] delta
    per level, numbered consecutively from zero: whenever the level
    generator returns [(bid_levels, ask_levels)], the snapshot holds
    [1 + len(bid_levels) + len(ask_levels)] deltas, the first the clear
    with sequence [0], the [k]-th after it an [ADD] with no order, flags
    [0] and sequence [k]. *)
Theorem build_order_book_snapshot_shape
    (instrument_id : InstrumentId) (reserve0 reserve1 fee_rate : Q)
    (ts_event ts_init num_levels : Z) (size_step : Q)
    (bid_levels ask_levels : list level) :
  calculate_amm_price_levels reserve0 reserve1 fee_rate num_levels size_step
  = Ok (bid_levels, ask_levels) ->
  build_order_book_snapshot InstrumentId BookOrder instrument_id
    reserve0 reserve1 fee_rate ts_event ts_init num_levels size_step
  = Ok {| deltas_instrument_id := instrument_id;
          deltas :=
            DeltaClear instrument_id 0 ts_event ts_init
            :: add_run instrument_id ts_event ts_init 1
                 (length bid_levels + length ask_levels) |}.
Proof.
  intros Hc. unfold build_order_book_snapshot. rewrite Hc. cbn.
  rewrite !add_levels_spec, !py_sorted_length.
  rewrite add_run_app, <- app_assoc. reflexivity.
Qed.

(** X18. An empty pool gives a snapshot that only clears the book: with
    [reserve0 <= 0] or [reserve1 <= 0] the snapshot is the single
    [CLEAR] delta with sequence [0]. *)
Theorem build_order_book_snapshot_empty_pool
    (instrument_id : InstrumentId) (reserve0 reserve1 fee_rate : Q)
    (ts_event ts_init num_levels : Z) (size_step : Q) :
  (reserve0 <= 0)%Q \/ (reserve1 <= 0)%Q ->
  build_order_book_snapshot InstrumentId BookOrder instrument_id
    reserve0 reserve1 fee_rate ts_event ts_init num_levels size_step
  = Ok {| deltas_instrument_id := instrument_id;
          deltas := [DeltaClear instrument_id 0 ts_event ts_init] |}.
Proof.
  intros H. unfold build_order_book_snapshot, calculate_amm_price_levels.
  destruct H as [H|H]; apply Qle_bool_iff in H; rewrite H;
    [|rewrite orb_true_r]; reflexivity.
Qed.

End SnapshotShape.

Lemma build_order_book_snapshot_shape_witness :
  exists bid_levels ask_levels : list level,
    calculate_amm_price_levels 1000 3000000 (3 # 1000) 5 (3 # 10)
    = Ok (bid_levels, ask_levels)
    /\ OrderBookSnapshot.build_order_book_snapshot string unit
         "WETH-USDC.UNISWAP" 1000 3000000 (3 # 1000) 17 18 5 (3 # 10)
       = Ok {| OrderBookSnapshot.deltas_instrument_id := "WETH-USDC.UNISWAP";
               OrderBookSnapshot.deltas :=
                 OrderBookSnapshot.DeltaClear "WETH-USDC.UNISWAP" 0 17 18
                 :: OrderBookSnapshot.add_run string unit
                      "WETH-USDC.UNISWAP" 17 18 1
                      (length bid_levels + length ask_levels) |}.
Proof.
  do 2 eexists. split; [vm_compute; reflexivity|].
  apply build_order_book_snapshot_shape. vm_compute. reflexivity.
Defined.

Lemma build_order_book_snapshot_empty_pool_witness :
  OrderBookSnapshot.build_order_book_snapshot string unit
    "WETH-USDC.UNISWAP" 0 3000000 (3 # 1000) 17 18 5 (1 # 20)
  = Ok {| OrderBookSnapshot.deltas_instrument_id := "WETH-USDC.UNISWAP";
          OrderBookSnapshot.deltas :=
            [OrderBookSnapshot.DeltaClear "WETH-USDC.UNISWAP" 0 17 18] |}.
Proof.
  apply build_order_book_snapshot_empty_pool. left. discriminate.
Defined.

(** ** What the validator accepts *)

Section EnvelopeValidation.

Import Envelope.

Variable Any : Type.
Variable str_of : Any -> string.

Local Abbreviation envelope_t := (gmap string (pyobj Any)).

Lemma py_ne_str_false (v : pyobj Any) (s : string) :
  py_ne_str Any v s = false <-> v = PyStr s.
Proof.
  destruct v as [s'|a]; cbn.
  - rewrite negb_false_iff, String.eqb_eq. split; congruence.
  - split; discriminate.
Qed.

(** The loop over [required_fields] appends one message per absent field,
    in the order of the fields. *)
Lemma missing_loop_spec (envelope : envelope_t) (fields : list string) :
  forall errors : list string,
    fold_left
      (fun errors field =>
         match envelope !! field with
         | None => errors ++ ["Missing required field: " +:+ field]
         | Some _ => errors
         end)
      fields errors
    = errors
      ++ List.map (fun field => "Missing required field: " +:+ field)
           (List.filter
              (fun field =>
                 match envelope !! field with
                 | None => true
                 | Some _ => false
                 end)
              fields).
Proof.
  induction fields as [|f rest IH]; intros errors; cbn.
  - now rewrite app_nil_r.
  - rewrite IH. destruct (envelope !! f); cbn; [reflexivity|].
    now rewrite <- app_assoc.
Qed.

Lemma filter_nil_forall {A : Type} (p : A -> bool) (l : list A) :
  List.filter p l = [] <-> Forall (fun x => p x = false) l.
Proof.
  induction l as [|x l IH]; cbn.
  - split; constructor.
  - destruct (p x) eqn:E.
    + split; [discriminate|]. intros H. inversion H; congruence.
    + rewrite IH. split; [now constructor | now inversion 1].
Qed.

Local Abbreviation missing_errors envelope :=
  (List.map (fun field => "Missing required field: " +:+ field)
     (List.filter
        (fun field =>
           match (envelope : envelope_t) !! field with
           | None => true
           | Some _ => false
           end)
        required_fields)).

Local Abbreviation constant_errors envelope field constant :=
  (match (envelope : envelope_t) !! field%string with
   | Some v =>
       if py_ne_str Any v constant%string then
         ["Invalid " +:+ field +:+ ": expected " +:+ constant
          +:+ ", got " +:+ py_str Any str_of v]
       else []
   | None => []
   end).

(** The error list in one piece: the missing fields, then the protocol
    name, then the protocol version. *)
Lemma validate_envelope_errors (envelope : envelope_t) :
  validate_envelope Any str_of envelope
  = (Nat.eqb
       (length (missing_errors envelope
                ++ constant_errors envelope "protocol" PROTOCOL
                ++ constant_errors envelope "protocol_version"
                     PROTOCOL_VERSION)) 0,
     missing_errors envelope
     ++ constant_errors envelope "protocol" PROTOCOL
     ++ constant_errors envelope "protocol_version" PROTOCOL_VERSION).
Proof.
  unfold validate_envelope. rewrite missing_loop_spec. cbn [app].
  destruct (envelope !! "protocol") as [v|];
    [destruct (py_ne_str Any v PROTOCOL)|];
    (destruct (envelope !! "protocol_version") as [v'|];
       [destruct (py_ne_str Any v' PROTOCOL_VERSION)|]);
    rewrite ?app_nil_r, <- ?app_assoc; reflexivity.
Qed.

Lemma accepted_iff_no_errors (errors : list string) :
  (Nat.eqb (length errors) 0, errors) = (true, []) <-> errors = [].
Proof. split; [now intros [= _ E] | now intros ->]. Qed.

(** X19. The validator accepts exactly the envelopes that hold all seven
    required fields and carry the protocol constants:
    [validate_envelope] returns [(True, [])] if and only if every
    required field is a key of the envelope, [envelope["protocol"]] is
    ["gep-a2a"] and [envelope["protocol_version"]] is ["1.0.0"]. *)
Theorem validate_envelope_accepts_iff (envelope : envelope_t) :
  validate_envelope Any str_of envelope = (true, [])
  <-> (Forall (fun field => is_Some (envelope !! field)) required_fields
       /\ envelope !! "protocol" = Some (PyStr PROTOCOL)
       /\ envelope !! "protocol_version" = Some (PyStr PROTOCOL_VERSION)).
Proof.
  rewrite validate_envelope_errors, accepted_iff_no_errors.
  split.
  - intros H.
    apply app_eq_nil in H. destruct H as [Hm H].
    apply app_eq_nil in H. destruct H as [Hp Hv].
    assert (Hall : Forall (fun field => is_Some (envelope !! field))
                          required_fields).
    { destruct (List.filter _ required_fields) eqn:Ef; [|discriminate Hm].
      apply filter_nil_forall in Ef.
      eapply List.Forall_impl; [|exact Ef].
      intros f. cbn. destruct (envelope !! f); [eauto | discriminate]. }
    split; [assumption|].
    rewrite List.Forall_forall in Hall.
    destruct (Hall "protocol") as [v Ev]; [cbn; auto|].
    destruct (Hall "protocol_version") as [v' Ev']; [cbn; auto 10|].
    rewrite Ev in Hp |- *. rewrite Ev' in Hv |- *.
    destruct (py_ne_str Any v PROTOCOL) eqn:Ep; [discriminate Hp|].
    destruct (py_ne_str Any v' PROTOCOL_VERSION) eqn:Ev2; [discriminate Hv|].
    apply py_ne_str_false in Ep, Ev2. now subst.
  - intros (Hall & Hp & Hv). rewrite Hp, Hv.
    assert (Ef : List.filter
                   (fun field =>
                      match envelope !! field with
                      | None => true
                      | Some _ => false
                      end) required_fields = []).
    { apply filter_nil_forall.
      eapply List.Forall_impl; [|exact Hall].
      intros f [w ->]. reflexivity. }
    rewrite Ef. reflexivity.
Qed.

End EnvelopeValidation.

(** ** Building, tampering and validating *)

Section EnvelopeUse.

Import Envelope.

Variable Any : Type.
Variable str_of : Any -> string.

Local Abbreviation envelope_t := (gmap string (pyobj Any)).

(** X20. Fields outside the required seven never matter to the validator:
    adding or overwriting a key that is not a required field leaves the
    result of [validate_envelope] unchanged. *)
Theorem validate_envelope_ignores_other_keys
    (envelope : envelope_t) (key : string) (value : pyobj Any) :
  ~ In key required_fields ->
  validate_envelope Any str_of (<[key := value]> envelope)
  = validate_envelope Any str_of envelope.
Proof.
  intros Hk.
  assert (Hl : forall field, In field required_fields ->
                 <[key := value]> envelope !! field = envelope !! field).
  { intros field Hf. apply lookup_insert_ne. congruence. }
  assert (Hm : List.filter
                 (fun field =>
                    match <[key := value]> envelope !! field with
                    | None => true
                    | Some _ => false
                    end) required_fields
               = List.filter
                   (fun field =>
                      match envelope !! field with
                      | None => true
                      | Some _ => false
                      end) required_fields).
  { apply List.filter_ext_in. intros field Hf. now rewrite Hl. }
  rewrite !validate_envelope_errors, Hm.
  rewrite !(Hl "protocol"), !(Hl "protocol_version") by (cbn; auto 10).
  reflexivity.
Qed.

(** X21. A built envelope has the seven required keys and no other, and
    gives back under each key what went in: the two protocol constants,
    the three arguments, and the message id and timestamp the caller
    supplied, or else the generated ones. *)
Theorem build_envelope_contents
    (w : world) (message_type sender_id payload : pyobj Any)
    (message_id timestamp : option (pyobj Any)) :
  let envelope :=
    build_envelope Any w message_type sender_id payload message_id timestamp
  in
  (forall key : string,
     is_Some (envelope !! key) <-> In key required_fields)
  /\ envelope !! "protocol" = Some (PyStr PROTOCOL)
  /\ envelope !! "protocol_version" = Some (PyStr PROTOCOL_VERSION)
  /\ envelope !! "message_type" = Some message_type
  /\ envelope !! "sender_id" = Some sender_id
  /\ envelope !! "payload" = Some payload
  /\ envelope !! "message_id"
     = Some (default (PyStr (generate_message_id w)) message_id)
  /\ envelope !! "timestamp"
     = Some (default (PyStr (utc_now_isoformat w)) timestamp).
Proof.
  cbn zeta. split.
  - intros key. split.
    + intros [v Hv]. unfold build_envelope, list_to_map in Hv.
      cbn [foldr uncurry] in Hv.
      repeat (apply lookup_insert_Some in Hv;
              destruct Hv as [[<- _]|[_ Hv]]; [cbn; auto 10|]).
      rewrite lookup_empty in Hv. discriminate.
    + intros Hk. cbn in Hk.
      repeat (destruct Hk as [<-|Hk]; [eexists; reflexivity|]).
      contradiction.
  - destruct message_id, timestamp; repeat split; reflexivity.
Qed.

(** X22. Dropping any one required field from a built envelope is
    reported as exactly that field missing: the envelope is rejected with
    the single error ["Missing required field: <field>"]. *)
Theorem validate_envelope_reports_deleted_field
    (w : world) (message_type sender_id payload : pyobj Any)
    (message_id timestamp : option (pyobj Any)) (field : string) :
  In field required_fields ->
  validate_envelope Any str_of
    (delete field
       (build_envelope Any w message_type sender_id payload
          message_id timestamp))
  = (false, ["Missing required field: " +:+ field]).
Proof.
  intros Hf. cbn in Hf.
  repeat (destruct Hf as [<-|Hf]; [reflexivity|]). contradiction.
Qed.

(** X23. Overwriting a protocol constant of a built envelope with any
    other value is reported as exactly that mismatch: one error naming
    the expected constant and the value found. *)
Theorem validate_envelope_reports_wrong_constant
    (w : world) (message_type sender_id payload : pyobj Any)
    (message_id timestamp : option (pyobj Any)) (value : pyobj Any) :
  let envelope :=
    build_envelope Any w message_type sender_id payload message_id timestamp
  in
  (value <> PyStr PROTOCOL ->
   validate_envelope Any str_of (<["protocol" := value]> envelope)
   = (false,
      ["Invalid protocol: expected gep-a2a, got " +:+ py_str Any str_of value]))
  /\ (value <> PyStr PROTOCOL_VERSION ->
      validate_envelope Any str_of (<["protocol_version" := value]> envelope)
      = (false,
         ["Invalid protocol_version: expected 1.0.0, got "
          +:+ py_str Any str_of value])).
Proof.
  cbn zeta. split; intros Hv.
  - assert (E : py_ne_str Any value PROTOCOL = true).
    { destruct (py_ne_str Any value PROTOCOL) eqn:E; [reflexivity|].
      apply py_ne_str_false in E. contradiction. }
    rewrite validate_envelope_errors.
    rewrite lookup_insert_eq, E.
    rewrite lookup_insert_ne by discriminate.
    reflexivity.
  - assert (E : py_ne_str Any value PROTOCOL_VERSION = true).
    { destruct (py_ne_str Any value PROTOCOL_VERSION) eqn:E; [reflexivity|].
      apply py_ne_str_false in E. contradiction. }
    rewrite validate_envelope_errors.
    rewrite lookup_insert_eq, E.
    rewrite lookup_insert_ne by discriminate.
    reflexivity.
Qed.

End EnvelopeUse.

Lemma validate_envelope_ignores_other_keys_witness :
  Envelope.validate_envelope unit (fun _ => "{}")
    (<["trace_id" := Envelope.PyStr "t-1"]>
       {["protocol" := Envelope.PyStr "gep-a2a"]})
  = Envelope.validate_envelope unit (fun _ => "{}")
      {["protocol" := Envelope.PyStr "gep-a2a"]}.
Proof.
  apply validate_envelope_ignores_other_keys. cbn.
  intros H. repeat (destruct H as [H|H]; [discriminate H|]). exact H.
Defined.

Lemma validate_envelope_reports_deleted_field_witness :
  Envelope.validate_envelope unit (fun _ => "{}")
    (delete "timestamp"
       (Envelope.build_envelope unit
          {| Envelope.uuid4_hex := "0123456789abcdef0123456789abcdef";
             Envelope.utc_now_isoformat := "2025-01-01T00:00:00+00:00" |}
          (Envelope.PyStr "publish") (Envelope.PyStr "node_test")
          (Envelope.PyOther tt) None None))
  = (false, ["Missing required field: timestamp"]).
Proof.
  apply (validate_envelope_reports_deleted_field unit (fun _ => "{}")).
  cbn. auto 10.
Defined.

Lemma validate_envelope_reports_wrong_constant_witness :
  Envelope.validate_envelope unit (fun _ => "{}")
    (<["protocol" := Envelope.PyStr "wrong-protocol"]>
       (Envelope.build_envelope unit
          {| Envelope.uuid4_hex := "0123456789abcdef0123456789abcdef";
             Envelope.utc_now_isoformat := "2025-01-01T00:00:00+00:00" |}
          (Envelope.PyStr "publish") (Envelope.PyStr "node_test")
          (Envelope.PyOther tt) None None))
  = (false, ["Invalid protocol: expected gep-a2a, got wrong-protocol"]).
Proof.
  apply (proj1 (validate_envelope_reports_wrong_constant unit (fun _ => "{}")
                  _ _ _ _ None None (Envelope.PyStr "wrong-protocol"))).
  discriminate.
Defined.

(** ** Generated identifiers *)

Section Identifiers.

Import Envelope.

Lemma string_length_app (s1 s2 : string) :
  String.length (s1 +:+ s2) = (String.length s1 + String.length s2)%nat.
Proof.
  induction s1 as [|c s1 IH]; [reflexivity|].
  change (S (String.length (s1 +:+ s2))
          = S (String.length s1 + String.length s2)).
  now f_equal.
Qed.

Lemma substring_0_length (m : nat) : forall s : string,
  String.length (String.substring 0 m s) = Nat.min m (String.length s).
Proof.
  induction m as [|m IH]; intros [|c s]; try reflexivity.
  change (S (String.length (String.substring 0 m s))
          = S (Nat.min m (String.length s))).
  now f_equal.
Qed.

Lemma string_prefix_app (s1 s2 : string) :
  String.prefix s1 (s1 +:+ s2) = true.
Proof.
  induction s1 as [|c s1 IH]; [now destruct s2|].
  change (String.prefix (String c s1) (String c s1 +:+ s2))
    with (if Ascii.ascii_dec c c then String.prefix s1 (s1 +:+ s2)
          else false).
  destruct (Ascii.ascii_dec c c); [exact IH | congruence].
Qed.

(** X24. Generated identifiers have a fixed format.  With the 32
    hexadecimal digits of a UUID, [generate_message_id] returns ["msg_"]
    followed by 24 characters (28 in all) and [generate_node_id] returns
    ["node_"] followed by 20 characters (25 in all). *)
Theorem generated_ids_format (w : world) :
  String.length (uuid4_hex w) = 32%nat ->
  String.prefix "msg_" (generate_message_id w) = true
  /\ String.length (generate_message_id w) = 28%nat
  /\ String.prefix "node_" (generate_node_id w) = true
  /\ String.length (generate_node_id w) = 25%nat.
Proof.
  intros Hlen. unfold generate_message_id, generate_node_id.
  rewrite !string_length_app, !substring_0_length, Hlen.
  repeat split; try reflexivity; apply string_prefix_app.
Qed.

Lemma generated_ids_format_witness :
  String.prefix "msg_"
    (generate_message_id
       {| uuid4_hex := "0123456789abcdef0123456789abcdef";
          utc_now_isoformat := "2025-01-01T00:00:00+00:00" |}) = true
  /\ String.length
       (generate_message_id
          {| uuid4_hex := "0123456789abcdef0123456789abcdef";
             utc_now_isoformat := "2025-01-01T00:00:00+00:00" |}) = 28%nat
  /\ String.prefix "node_"
       (generate_node_id
          {| uuid4_hex := "0123456789abcdef0123456789abcdef";
             utc_now_isoformat := "2025-01-01T00:00:00+00:00" |}) = true
  /\ String.length
       (generate_node_id
          {| uuid4_hex := "0123456789abcdef0123456789abcdef";
             utc_now_isoformat := "2025-01-01T00:00:00+00:00" |}) = 25%nat.
Proof. apply generated_ids_format. reflexivity. Defined.

End Identifiers.

(** ** The capsule mappers *)

Section Bundles.

Import CapsuleMapper.

Variable sha256_hexdigest : string -> string.
Variable json_dumps_canonical : json -> string.

Local Abbreviation map_section_delta :=
  (map_section_delta sha256_hexdigest json_dumps_canonical).
Local Abbreviation map_design_doc :=
  (map_design_doc sha256_hexdigest json_dumps_canonical).

(** X25. The references inside a bundle resolve.  Both bundle mappers
    return three assets, a gene, a capsule and an evolution event in this
    order, with three different ids; the capsule's [gene_refs] is the
    gene's id alone and the event's [capsule_ref] is the capsule's id. *)
Theorem mapped_bundles_well_linked
    (session_id section_id design_doc_path content : string)
    (metadata : option json) (decisions : option (list json)) :
  well_linked (map_section_delta session_id section_id content metadata)
  /\ well_linked (map_design_doc session_id design_doc_path content
                    decisions).
Proof.
  split; unfold well_linked; do 6 eexists;
    repeat split; try reflexivity; discriminate.
Qed.

Lemma string_prefix_substring (m : nat) : forall s : string,
  String.prefix (String.substring 0 m s) s = true.
Proof.
  induction m as [|m IH]; intros [|c s]; try reflexivity.
  change (String.prefix (String.substring 0 (S m) (String c s)) (String c s))
    with (if Ascii.ascii_dec c c
          then String.prefix (String.substring 0 m s) s else false).
  destruct (Ascii.ascii_dec c c); [apply IH | congruence].
Qed.

Lemma string_prefix_refl (s : string) : String.prefix s s = true.
Proof.
  induction s as [|c s IH]; [reflexivity|].
  change (String.prefix (String c s) (String c s))
    with (if Ascii.ascii_dec c c then String.prefix s s else false).
  destruct (Ascii.ascii_dec c c); [exact IH | congruence].
Qed.

(** The preview is the content cut to [limit] characters. *)
Lemma preview_spec (limit : nat) (content : string) :
  String.length (preview limit content)
  = Nat.min limit (String.length content)
  /\ String.prefix (preview limit content) content = true
  /\ ((String.length content <= limit)%nat ->
      preview limit content = content).
Proof.
  unfold preview.
  destruct (Nat.ltb_spec limit (String.length content)) as [Hlt|Hle].
  - rewrite substring_0_length.
    repeat split; [apply string_prefix_substring | lia].
  - repeat split; [lia | apply string_prefix_refl].
Qed.

(** X26. The gene of a bundle previews the content without ever exceeding
    its limit: [content_preview] is the first 500 characters of the
    section content (the first 1000 of a design document), and the whole
    content when it is no longer than that. *)
Theorem gene_content_preview_truncated
    (session_id section_id design_doc_path content : string)
    (metadata : option json) (decisions : option (list json)) :
  (exists (gene : json) (others : list json) (p : string),
     jget "assets"
       (map_section_delta session_id section_id content metadata)
     = Some (JList (gene :: others))
     /\ jget2 "data" "content_preview" gene = Some (JStr p)
     /\ String.length p = Nat.min 500 (String.length content)
     /\ String.prefix p content = true
     /\ ((String.length content <= 500)%nat -> p = content))
  /\ (exists (gene : json) (others : list json) (p : string),
        jget "assets"
          (map_design_doc session_id design_doc_path content decisions)
        = Some (JList (gene :: others))
        /\ jget2 "data" "content_preview" gene = Some (JStr p)
        /\ String.length p = Nat.min 1000 (String.length content)
        /\ String.prefix p content = true
        /\ ((String.length content <= 1000)%nat -> p = content)).
Proof.
  split; do 3 eexists;
    (split; [reflexivity|]); (split; [reflexivity|]); apply preview_spec.
Qed.

End Bundles.

(** ** Sorting the ladder *)

Section SortedLadder.

Import OrderBookSnapshot.

Local Open Scope Q_scope.

Variable key : level -> Q.

Lemma insert_by_key_last (x : level) (acc : list level) :
  Forall (fun y => key y <= key x) acc ->
  insert_by_key key x acc = acc ++ [x].
Proof.
  induction 1 as [|y rest Hy _ IH]; cbn; [reflexivity|].
  destruct (Qlt_le_dec (key x) (key y)) as [Hlt|_]; [lra | now rewrite IH].
Qed.

(** Sorting a list whose keys already ascend returns it unchanged. *)
Lemma py_sorted_ascending (l : list level) :
  StronglySorted (fun a b => key a <= key b) l -> py_sorted key l = l.
Proof.
  unfold py_sorted. intros Hs.
  assert (G : forall acc,
            Forall (fun y => Forall (fun x => key y <= key x) l) acc ->
            fold_left (fun acc x => insert_by_key key x acc) l acc
            = acc ++ l).
  { induction Hs as [|x rest _ IH Hx]; intros acc Hacc; cbn.
    - now rewrite app_nil_r.
    - rewrite insert_by_key_last.
      + rewrite IH; [now rewrite <- app_assoc|].
        apply List.Forall_app. split.
        * eapply List.Forall_impl; [|exact Hacc].
          intros y Hy. now inversion Hy.
        * constructor; [assumption | constructor].
      + eapply List.Forall_impl; [|exact Hacc].
        intros y Hy. now inversion Hy. }
  apply (G []). constructor.
Qed.

End SortedLadder.

Section SnapshotOrder.

Import OrderBookSnapshot.

Local Open Scope Q_scope.

Lemma StronglySorted_weaken {A : Type} (R1 R2 : A -> A -> Prop)
    (l : list A) :
  (forall a b, R1 a b -> R2 a b) ->
  StronglySorted R1 l -> StronglySorted R2 l.
Proof.
  intros HR. induction 1 as [|x l _ IH Hx]; constructor; [assumption|].
  eapply List.Forall_impl; [|exact Hx]. auto.
Qed.

Lemma StronglySorted_map_inv {A B : Type} (R : B -> B -> Prop)
    (f : A -> B) (l : list A) :
  StronglySorted R (List.map f l) ->
  StronglySorted (fun a b => R (f a) (f b)) l.
Proof.
  induction l as [|x l IH]; cbn; intros H; [constructor|].
  inversion H as [|? ? Hs Hx]; subst.
  constructor; [now apply IH|].
  rewrite List.Forall_map in Hx. exact Hx.
Qed.

(** Exact arithmetic only (the binary64 code differs, see [Binary64]).
    The two sorts of [build_order_book_snapshot] change nothing.  On
    a valid pool with a positive step the generator's bid levels are
    already in descending and its ask levels in ascending price order:
    [sorted(bid_levels, key=lambda x: -x[0])] is [bid_levels] and
    [sorted(ask_levels, key=lambda x: x[0])] is [ask_levels]. *)
Theorem snapshot_sorts_are_identity
    (reserve0 reserve1 fee_rate : Q) (num_levels : Z) (size_step : Q) :
  0 < reserve0 -> 0 < reserve1 -> 0 <= fee_rate -> fee_rate < 1 ->
  0 < size_step ->
  exists bid_levels ask_levels : list level,
    calculate_amm_price_levels reserve0 reserve1 fee_rate num_levels size_step
    = Ok (bid_levels, ask_levels)
    /\ py_sorted (fun x => - fst x) bid_levels = bid_levels
    /\ py_sorted (fun x => fst x) ask_levels = ask_levels.
Proof.
  intros H0 H1 Hf0 Hf1 Hs.
  destruct (ladder_sorted reserve0 reserve1 fee_rate
              num_levels size_step H0 H1 Hf0 Hf1 Hs)
    as (bids & asks & Hc & _ & _ & Hb & Ha).
  exists bids, asks. split; [assumption|].
  split; apply py_sorted_ascending.
  - apply StronglySorted_map_inv in Hb.
    eapply StronglySorted_weaken; [|exact Hb]. cbn. intros a b Hab. lra.
  - apply StronglySorted_map_inv in Ha.
    eapply StronglySorted_weaken; [|exact Ha]. cbn. intros a b Hab. lra.
Qed.

End SnapshotOrder.

Lemma snapshot_sorts_are_identity_witness :
  exists bid_levels ask_levels : list level,
    calculate_amm_price_levels 1000 3000000 (3 # 1000) 5 (1 # 10)
    = Ok (bid_levels, ask_levels)
    /\ OrderBookSnapshot.py_sorted (fun x => - fst x)%Q bid_levels
       = bid_levels
    /\ OrderBookSnapshot.py_sorted (fun x => fst x) ask_levels = ask_levels.
Proof.
  apply snapshot_sorts_are_identity; reflexivity || discriminate.
Defined.

(** ** The pricing functions on binary64 floats

    The strict inequalities of the constant-product curve hold of the
    exact formulas (see the lemmas marked exact arithmetic above).  The
    source evaluates the formulas in binary64, where the subtractions
    [reserve0 - new_reserve0] and [new_reserve1 - reserve1] cancel: for
    small trades the inequalities fail.  They hold on the pool of the
    test suite, [reserve0 = 1000.0], [reserve1 = 3_000_000.0]. *)

Section Binary64Pricing.

#[local] Set Warnings "-inexact-float".

Local Open Scope float_scope.












End Binary64Pricing.

(** ** The level generator on binary64 floats *)

Section Binary64Book.

#[local] Set Warnings "-inexact-float".

Local Open Scope float_scope.







End Binary64Book.
